(** * CAP1188 capacitive-touch driver: a shallow embedding of CAP1188.cpp

    The driver talks to the chip through four external collaborators:
    Arduino GPIO ([pinMode], [digitalWrite], [delay]), the Arduino SPI
    object ([SPI.transferBytes]) and I2Cdev ([I2Cdev::readByte],
    [I2Cdev::writeByte]).  Each of them is modelled as a primitive of a small
    state monad whose state pairs the C++ object (the private fields of class
    CAP1188) with a simulated world: the chip's register file, its SPI
    register pointer, the health of the I2C bus and the log of every call
    made to a collaborator. *)

From Stdlib Require Import ZArith List Bool Lia.
From stdpp Require Import base option gmap.
Import ListNotations.
Local Open Scope Z_scope.

(** ** Fixed-width integers *)

(** Conversion to [uint8_t]. *)
Definition to_u8 (z : Z) : Z := z mod 256.

(** Conversion to [int8_t] (two's complement). *)
Definition to_i8 (z : Z) : Z := (z + 128) mod 256 - 128.

Definition is_u8 (z : Z) : Prop := 0 <= z < 256.

(** ** The object and the world *)

(** Private fields of class CAP1188 (CAP1188.h): [bool _i2c] and
    [int8_t _i2cAddress, _resetPin, _csPin]. *)
Record CAP1188 : Type := mkCAP1188 {
  _i2c : bool;
  _i2cAddress : Z;
  _resetPin : Z;
  _csPin : Z
}.

Inductive PinMode : Type := INPUT | OUTPUT.
Inductive Level : Type := LOW | HIGH.

(** One entry per call to an external collaborator, in call order. *)
Inductive Event : Type :=
| EvPinMode (pin : Z) (mode : PinMode)
| EvDigitalWrite (pin : Z) (level : Level)
| EvDelay (ms : Z)
  (* SPI.transferBytes(data, out, size): the bytes shifted out (None for a
     NULL data buffer) and the bytes captured (None for a NULL out buffer) *)
| EvSpiTransfer (sent : option (list Z)) (captured : option (list Z))
  (* I2Cdev::readByte(dev, reg, &b): the byte delivered, None on failure *)
| EvI2CRead (devAddr regAddr : Z) (delivered : option Z)
  (* I2Cdev::writeByte(dev, reg, data) and the status it returned *)
| EvI2CWrite (devAddr regAddr data : Z) (ok : bool).

(** The simulated environment.  [regs] is the chip's register file (a
    register never written reads 0), [pointer] the register pointer of the
    chip's SPI interface, [reading] tells whether the last SPI command was a
    read (0x7F), [i2c_up] tells whether I2C transfers complete, [junk] is what
    an uninitialised [uint8_t] local happens to hold. *)
Record World : Type := mkWorld {
  regs : gmap Z Z;
  pointer : Z;
  reading : bool;
  i2c_up : bool;
  junk : Z;
  log : list Event
}.

Record State : Type := mkState {
  dev : CAP1188;
  hw : World
}.

(** Register file access: the bus carries 8 bits. *)
Definition reg_get (rf : gmap Z Z) (a : Z) : Z := to_u8 (default 0 (rf !! a)).
Definition reg_set (rf : gmap Z Z) (a d : Z) : gmap Z Z := <[a := d]> rf.

Arguments to_u8 : simpl never.
Arguments to_i8 : simpl never.
Arguments reg_get : simpl never.
Arguments reg_set : simpl never.

(** ** The state monad *)

Definition M (A : Type) : Type := State -> A * State.

Definition ret {A : Type} (a : A) : M A := fun s => (a, s).

Definition bind {A B : Type} (m : M A) (f : A -> M B) : M B :=
  fun s => f (fst (m s)) (snd (m s)).

Notation "x <- c1 ;; c2" := (bind c1 (fun x => c2))
  (at level 100, c1 at next level, right associativity).
Notation "c1 ;; c2" := (bind c1 (fun _ => c2))
  (at level 100, right associativity).

(** Result and final state of a computation run from [s]. *)
Definition result {A : Type} (m : M A) (s : State) : A := fst (m s).
Definition after {A : Type} (m : M A) (s : State) : State := snd (m s).

Definition emit (e : Event) (w : World) : World :=
  mkWorld (regs w) (pointer w) (reading w) (i2c_up w) (junk w) (log w ++ [e]).

Definition with_hw (f : World -> World) : M unit :=
  fun s => (tt, mkState (dev s) (f (hw s))).

(** *** Field access *)

Definition get_i2c : M bool := fun s => (_i2c (dev s), s).
Definition get_i2cAddress : M Z := fun s => (_i2cAddress (dev s), s).
Definition get_resetPin : M Z := fun s => (_resetPin (dev s), s).
Definition get_csPin : M Z := fun s => (_csPin (dev s), s).

Definition set_i2c (b : bool) : M unit := fun s =>
  (tt, mkState (mkCAP1188 b (_i2cAddress (dev s)) (_resetPin (dev s)) (_csPin (dev s))) (hw s)).
Definition set_i2cAddress (a : Z) : M unit := fun s =>
  (tt, mkState (mkCAP1188 (_i2c (dev s)) (to_i8 a) (_resetPin (dev s)) (_csPin (dev s))) (hw s)).
Definition set_resetPin (p : Z) : M unit := fun s =>
  (tt, mkState (mkCAP1188 (_i2c (dev s)) (_i2cAddress (dev s)) (to_i8 p) (_csPin (dev s))) (hw s)).
Definition set_csPin (p : Z) : M unit := fun s =>
  (tt, mkState (mkCAP1188 (_i2c (dev s)) (_i2cAddress (dev s)) (_resetPin (dev s)) (to_i8 p)) (hw s)).

(** A local declared without initialiser, e.g. [uint8_t keys;]. *)
Definition uninitialised : M Z := fun s => (to_u8 (junk (hw s)), s).

(** *** GPIO: the pin argument is a [uint8_t] *)

Definition pinMode (pin : Z) (mode : PinMode) : M unit :=
  with_hw (emit (EvPinMode (to_u8 pin) mode)).

Definition digitalWrite (pin : Z) (level : Level) : M unit :=
  with_hw (emit (EvDigitalWrite (to_u8 pin) level)).

Definition delay (ms : Z) : M unit :=
  with_hw (emit (EvDelay ms)).

(** *** The simulated chip behind the SPI pins

    As the comments of CAP1188.cpp describe the command set: 0x7D followed by
    an address sets the register pointer, 0x7E followed by a byte writes the
    pointed register, 0x7F makes the chip send the pointed register, and
    0x7A 0x7A resets the interface (no register changes).  Bytes captured
    while the chip is not answering a read command are 0xFF, the idle
    line. *)
Definition chip_state (rf : gmap Z Z) (ptr : Z) (rd : bool) (w : World) : World :=
  mkWorld rf ptr rd (i2c_up w) (junk w) (log w).

Definition chip_command (bytes : list Z) (w : World) : World :=
  match bytes with
  | [c] => chip_state (regs w) (pointer w) (c =? 0x7F) w
  | [c; x] =>
      if c =? 0x7D then chip_state (regs w) x false w
      else if c =? 0x7E
           then chip_state (reg_set (regs w) (pointer w) x) (pointer w) false w
           else chip_state (regs w) (pointer w) false w
  | _ => chip_state (regs w) (pointer w) false w
  end.

Definition chip_reply (w : World) : Z :=
  if reading w then reg_get (regs w) (pointer w) else 0xFF.

(** [SPI.transferBytes(data, out, size)]; either buffer may be NULL.  Returns
    the content of the out buffer when there is one. *)
Definition SPI_transferBytes (data : option (list Z)) (out : bool) (size : nat)
  : M (option (list Z)) :=
  fun s =>
    let sent := firstn size <$> data in
    let w1 := match sent with Some bytes => chip_command bytes (hw s) | None => hw s end in
    let captured :=
      if out then Some (repeat (chip_reply w1) size) else None in
    (captured, mkState (dev s) (emit (EvSpiTransfer sent captured) w1)).

(** *** I2Cdev

    [I2Cdev::readByte(devAddr, regAddr, &data)] returns the number of bytes
    read (-1 on failure) and leaves [data] alone when the transfer fails;
    [I2Cdev::writeByte(devAddr, regAddr, data)] returns the success status.
    [buf] is the content of [data] before the call. *)
Definition I2Cdev_readByte (devAddr regAddr buf : Z) : M (Z * Z) :=
  fun s =>
    let w := hw s in
    if i2c_up w
    then let v := reg_get (regs w) regAddr in
         ((1, v), mkState (dev s) (emit (EvI2CRead (to_u8 devAddr) regAddr (Some v)) w))
    else ((-1, buf), mkState (dev s) (emit (EvI2CRead (to_u8 devAddr) regAddr None) w)).

Definition I2Cdev_writeByte (devAddr regAddr data : Z) : M bool :=
  fun s =>
    let w := hw s in
    if i2c_up w
    then (true, mkState (dev s)
                  (emit (EvI2CWrite (to_u8 devAddr) regAddr data true)
                     (chip_state (reg_set (regs w) regAddr data) (pointer w) (reading w) w)))
    else (false, mkState (dev s) (emit (EvI2CWrite (to_u8 devAddr) regAddr data false) w)).

(** ** The SPI command engine (CAP1188.cpp, "minimal SPI functionality") *)

Definition resetSPI : M bool :=
  cs <- get_csPin ;;
  digitalWrite cs LOW ;;
  SPI_transferBytes (Some [0x7A; 0x7A]) false 2 ;;
  digitalWrite cs HIGH ;;
  ret true.

Definition setRegisterAddress (regAddress : Z) : M bool :=
  cs <- get_csPin ;;
  digitalWrite cs LOW ;;
  SPI_transferBytes (Some [0x7D; regAddress]) false 2 ;;
  digitalWrite cs HIGH ;;
  ret true.

(** [buff] starts as 0x7F and is reused as the receive buffer. *)
Definition readRegister : M Z :=
  cs <- get_csPin ;;
  digitalWrite cs LOW ;;
  SPI_transferBytes (Some [0x7F]) false 1 ;;
  reply <- SPI_transferBytes None true 1 ;;
  digitalWrite cs HIGH ;;
  ret (match reply with Some (b :: _) => b | _ => 0x7F end).

Definition writeRegister (data : Z) : M bool :=
  cs <- get_csPin ;;
  digitalWrite cs LOW ;;
  SPI_transferBytes (Some [0x7E; data]) false 2 ;;
  digitalWrite cs HIGH ;;
  ret true.

Definition writeRegisterAtAddress (regAddress data : Z) : M bool :=
  setRegisterAddress regAddress ;;
  writeRegister data ;;
  ret true.

(** [*data = readRegister()]: the out-parameter is the result. *)
Definition readRegisterFromAddress (regAddress : Z) : M Z :=
  setRegisterAddress regAddress ;;
  readRegister.

(** ** Register addresses

    CAP1188_reg.h, which defines the register address macros, is not among
    the sources: the addresses are a parameter of the development, one field
    per macro used by CAP1188.cpp (including the source's spelling
    CAPP1188_RECALIBRATION_CONFIGURATION_REG). *)
Class RegisterMap : Type := mkRegisterMap {
  CAP1188_MAIN_CONTROL_REG : Z;
  CAP1188_SENSOR_INPUT_STATUS_REG : Z;
  CAP1188_AVERAGING_AND_SAMPLING_CONFIG_REG : Z;
  CAP1188_MULTIPLE_TOUCH_CONFIGURATION_REG : Z;
  CAPP1188_RECALIBRATION_CONFIGURATION_REG : Z;
  CAP1188_SENSOR_INPUT_1_THRESHOLD_REG : Z;
  CAP1188_SENSOR_INPUT_2_THRESHOLD_REG : Z;
  CAP1188_SENSOR_INPUT_3_THRESHOLD_REG : Z;
  CAP1188_SENSOR_INPUT_4_THRESHOLD_REG : Z;
  CAP1188_SENSOR_INPUT_5_THRESHOLD_REG : Z;
  CAP1188_SENSOR_INPUT_6_THRESHOLD_REG : Z;
  CAP1188_SENSOR_INPUT_7_THRESHOLD_REG : Z;
  CAP1188_SENSOR_INPUT_8_THRESHOLD_REG : Z;
  CAP1188_STANDBY_CONFIGURATION_REG : Z;
  CAP1188_SENSOR_INPUT_LED_LINKING_REG : Z;
  CAP1188_PRODUCT_ID_REG : Z;
  CAP1188_MANUFACTURER_ID_REG : Z;
  CAP1188_REVISION_REG : Z
}.

(** The addresses of the CAP1188 data sheet (CAP1188.h itself mentions 0x41
    for the standby configuration and 0x30-0x37 for the thresholds); used to
    run the model on concrete inputs. *)
Definition datasheet_regs : RegisterMap :=
  mkRegisterMap 0x00 0x03 0x24 0x2A 0x2F 0x30 0x31 0x32 0x33 0x34 0x35 0x36 0x37
                0x41 0x72 0xFD 0xFE 0xFF.

Section Driver.
Context {R : RegisterMap}.

(** ** Transport selection

    Every public method repeats the same two-armed statement,
    [if (!_i2c) readRegisterFromAddress(REG, &b); else
     I2Cdev::readByte(_i2cAddress, REG, &b);] and its write counterpart; the
    status returned by either arm is dropped.  [buf] is what [b] held before
    the statement. *)
Definition selectRead (reg buf : Z) : M Z :=
  i2c <- get_i2c ;;
  if negb i2c
  then readRegisterFromAddress reg
  else (addr <- get_i2cAddress ;;
        r <- I2Cdev_readByte addr reg buf ;;
        ret (snd r)).

Definition selectWrite (reg data : Z) : M unit :=
  i2c <- get_i2c ;;
  if negb i2c
  then (writeRegisterAtAddress reg data ;; ret tt)
  else (addr <- get_i2cAddress ;;
        I2Cdev_writeByte addr reg data ;;
        ret tt).

(** ** Public methods *)

Definition getProductId : M Z :=
  productId <- uninitialised ;;
  selectRead CAP1188_PRODUCT_ID_REG productId.

Definition getManufacturerId : M Z :=
  manufacturerId <- uninitialised ;;
  selectRead CAP1188_MANUFACTURER_ID_REG manufacturerId.

Definition getRevision : M Z :=
  revision <- uninitialised ;;
  selectRead CAP1188_REVISION_REG revision.

Definition setMultipleTouchConfiguration
    (multipleTouchCircuitryEnable : bool) (numberOfSimultaneousTouches : Z) : M bool :=
  let buff : option Z :=          (* None: the default case returned false *)
    if multipleTouchCircuitryEnable
    then match numberOfSimultaneousTouches with
         | 1 => Some 128
         | 2 => Some 132
         | 3 => Some 136
         | 4 => Some 140
         | _ => None
         end
    else Some 0 in
  match buff with
  | None => ret false
  | Some b =>
      selectWrite CAP1188_MULTIPLE_TOUCH_CONFIGURATION_REG b ;;
      ret true
  end.

Definition setSensorInputLEDLinking (ledsToLink : Z) : M bool :=
  selectWrite CAP1188_SENSOR_INPUT_LED_LINKING_REG ledsToLink ;;
  ret true.

Definition getSensorInputs : M Z :=
  keys0 <- uninitialised ;;
  keys <- selectRead CAP1188_SENSOR_INPUT_STATUS_REG keys0 ;;
  if keys =? 0
  then ret keys
  else (currentRegState0 <- uninitialised ;;
        currentRegState <- selectRead CAP1188_MAIN_CONTROL_REG currentRegState0 ;;
        selectWrite CAP1188_MAIN_CONTROL_REG (to_u8 (Z.land currentRegState (Z.lnot 0x01))) ;;
        ret keys).

Definition setStandbyConfiguration
    (averageSum samplesPerMeasurement samplingTime cycleTime : Z) : M bool :=
  let reg :=
    to_u8 (Z.lor (Z.lor (Z.lor (Z.shiftl averageSum 7)
                               (Z.shiftl samplesPerMeasurement 4))
                        (Z.shiftl samplingTime 2))
                 cycleTime) in
  selectWrite CAP1188_STANDBY_CONFIGURATION_REG reg ;;
  ret true.

(** The four out-parameters are returned after the status. *)
Definition getStandbyConfiguration : M (bool * (Z * Z * Z * Z)) :=
  reg0 <- uninitialised ;;
  reg <- selectRead CAP1188_STANDBY_CONFIGURATION_REG reg0 ;;
  ret (true, (to_u8 (Z.shiftr reg 7),
              to_u8 (Z.land (Z.shiftr reg 4) 0x07),
              to_u8 (Z.land (Z.shiftr reg 2) 0x03),
              to_u8 (Z.land reg 0x03))).

Definition setAveragingAndSamplingConfig
    (samplesPerMeasurement samplingTime cycleTime : Z) : M bool :=
  let reg :=
    to_u8 (Z.lor (Z.lor (Z.shiftl samplesPerMeasurement 4)
                        (Z.shiftl samplingTime 2))
                 cycleTime) in
  selectWrite CAP1188_AVERAGING_AND_SAMPLING_CONFIG_REG reg ;;
  ret true.

Definition getAveragingAndSamplingConfig : M (bool * (Z * Z * Z)) :=
  reg0 <- uninitialised ;;
  reg <- selectRead CAP1188_AVERAGING_AND_SAMPLING_CONFIG_REG reg0 ;;
  ret (true, (to_u8 (Z.land (Z.shiftr reg 4) 0x07),
              to_u8 (Z.land (Z.shiftr reg 2) 0x03),
              to_u8 (Z.land reg 0x03))).

Definition setSensorInputThreshold (buttonNumber threshold : Z) : M bool :=
  match buttonNumber with
  | 1 => selectWrite CAP1188_SENSOR_INPUT_1_THRESHOLD_REG threshold ;; ret true
  | 2 => selectWrite CAP1188_SENSOR_INPUT_2_THRESHOLD_REG threshold ;; ret true
  | 3 => selectWrite CAP1188_SENSOR_INPUT_3_THRESHOLD_REG threshold ;; ret true
  | 4 => selectWrite CAP1188_SENSOR_INPUT_4_THRESHOLD_REG threshold ;; ret true
  | 5 => selectWrite CAP1188_SENSOR_INPUT_5_THRESHOLD_REG threshold ;; ret true
  | 6 => selectWrite CAP1188_SENSOR_INPUT_6_THRESHOLD_REG threshold ;; ret true
  | 7 => selectWrite CAP1188_SENSOR_INPUT_7_THRESHOLD_REG threshold ;; ret true
  | 8 => selectWrite CAP1188_SENSOR_INPUT_8_THRESHOLD_REG threshold ;; ret true
  | _ => ret false
  end.

(** Declared [bool] and ends in [return 0;]. *)
Definition setSensorInputThresholdAll (threshold : Z) : M bool :=
  reg0 <- uninitialised ;;
  reg1 <- selectRead CAPP1188_RECALIBRATION_CONFIGURATION_REG reg0 ;;
  let reg2 := to_u8 (Z.land reg1 0x7F) in
  selectWrite CAPP1188_RECALIBRATION_CONFIGURATION_REG reg2 ;;
  selectWrite CAP1188_SENSOR_INPUT_1_THRESHOLD_REG threshold ;;
  reg3 <- selectRead CAPP1188_RECALIBRATION_CONFIGURATION_REG reg2 ;;
  let reg4 := to_u8 (Z.lor reg3 0x80) in
  selectWrite CAPP1188_RECALIBRATION_CONFIGURATION_REG reg4 ;;
  ret false.

Definition getSensorInputThreshold (buttonNumber : Z) : M Z :=
  reg <- uninitialised ;;
  match buttonNumber with
  | 1 => selectRead CAP1188_SENSOR_INPUT_1_THRESHOLD_REG reg
  | 2 => selectRead CAP1188_SENSOR_INPUT_2_THRESHOLD_REG reg
  | 3 => selectRead CAP1188_SENSOR_INPUT_3_THRESHOLD_REG reg
  | 4 => selectRead CAP1188_SENSOR_INPUT_4_THRESHOLD_REG reg
  | 5 => selectRead CAP1188_SENSOR_INPUT_5_THRESHOLD_REG reg
  | 6 => selectRead CAP1188_SENSOR_INPUT_6_THRESHOLD_REG reg
  | 7 => selectRead CAP1188_SENSOR_INPUT_7_THRESHOLD_REG reg
  | 8 => selectRead CAP1188_SENSOR_INPUT_8_THRESHOLD_REG reg
  | _ => ret 0
  end.

(** ** Initialisation *)

Definition initI2C (address resetPin : Z) : M unit :=
  set_resetPin resetPin ;;
  set_i2cAddress address ;;
  set_i2c true ;;
  (rp <- get_resetPin ;; pinMode rp OUTPUT) ;;
  (rp <- get_resetPin ;; digitalWrite rp HIGH) ;;
  delay 10 ;;
  (rp <- get_resetPin ;; digitalWrite rp LOW) ;;
  setMultipleTouchConfiguration false 0 ;;
  setSensorInputLEDLinking 255 ;;
  ret tt.

Definition initSPI (csPin resetPin : Z) : M unit :=
  set_resetPin resetPin ;;
  set_csPin csPin ;;
  set_i2c false ;;
  (rp <- get_resetPin ;; pinMode rp OUTPUT) ;;
  (cs <- get_csPin ;; pinMode cs OUTPUT) ;;
  (rp <- get_resetPin ;; digitalWrite rp HIGH) ;;
  delay 10 ;;
  (rp <- get_resetPin ;; digitalWrite rp LOW) ;;
  resetSPI ;;
  setMultipleTouchConfiguration false 0 ;;
  setSensorInputLEDLinking 255 ;;
  ret tt.

(** ** The operations other than initialisation

    One constructor per method of the class, public or private, except
    [initI2C] and [initSPI]; [perform] calls it and drops its result. *)
Inductive Operation : Type :=
| OpGetProductId
| OpGetManufacturerId
| OpGetRevision
| OpGetSensorInputs
| OpSetMultipleTouchConfiguration (enable : bool) (count : Z)
| OpSetSensorInputLEDLinking (ledsToLink : Z)
| OpSetStandbyConfiguration (averageSum samplesPerMeasurement samplingTime cycleTime : Z)
| OpGetStandbyConfiguration
| OpSetAveragingAndSamplingConfig (samplesPerMeasurement samplingTime cycleTime : Z)
| OpGetAveragingAndSamplingConfig
| OpSetSensorInputThreshold (buttonNumber threshold : Z)
| OpSetSensorInputThresholdAll (threshold : Z)
| OpGetSensorInputThreshold (buttonNumber : Z)
| OpReadRegisterFromAddress (regAddress : Z)
| OpWriteRegisterAtAddress (regAddress data : Z)
| OpResetSPI
| OpSetRegisterAddress (regAddress : Z)
| OpReadRegister
| OpWriteRegister (data : Z).

Definition drop {A : Type} (m : M A) : M unit := m ;; ret tt.

Definition perform (o : Operation) : M unit :=
  match o with
  | OpGetProductId => drop getProductId
  | OpGetManufacturerId => drop getManufacturerId
  | OpGetRevision => drop getRevision
  | OpGetSensorInputs => drop getSensorInputs
  | OpSetMultipleTouchConfiguration e n => drop (setMultipleTouchConfiguration e n)
  | OpSetSensorInputLEDLinking l => drop (setSensorInputLEDLinking l)
  | OpSetStandbyConfiguration a b c d => drop (setStandbyConfiguration a b c d)
  | OpGetStandbyConfiguration => drop getStandbyConfiguration
  | OpSetAveragingAndSamplingConfig a b c => drop (setAveragingAndSamplingConfig a b c)
  | OpGetAveragingAndSamplingConfig => drop getAveragingAndSamplingConfig
  | OpSetSensorInputThreshold b t => drop (setSensorInputThreshold b t)
  | OpSetSensorInputThresholdAll t => drop (setSensorInputThresholdAll t)
  | OpGetSensorInputThreshold b => drop (getSensorInputThreshold b)
  | OpReadRegisterFromAddress a => drop (readRegisterFromAddress a)
  | OpWriteRegisterAtAddress a d => drop (writeRegisterAtAddress a d)
  | OpResetSPI => drop resetSPI
  | OpSetRegisterAddress a => drop (setRegisterAddress a)
  | OpReadRegister => drop readRegister
  | OpWriteRegister d => drop (writeRegister d)
  end.

Fixpoint perform_all (ops : list Operation) : M unit :=
  match ops with
  | [] => ret tt
  | o :: rest => perform o ;; perform_all rest
  end.

End Driver.

(** ** Vocabulary of the statements *)

(** The transfers of the selected transport complete: SPI has no failure
    signalling, I2C completes when the bus is up. *)
Definition transport_up (s : State) : Prop :=
  _i2c (dev s) = true -> i2c_up (hw s) = true.

(** The chip-select-framed SPI commands, as they appear in the log. *)
Definition spi_pointer_frame (cs a : Z) : list Event :=
  [EvDigitalWrite cs LOW; EvSpiTransfer (Some [0x7D; a]) None; EvDigitalWrite cs HIGH].

Definition spi_read_frame (cs v : Z) : list Event :=
  [EvDigitalWrite cs LOW; EvSpiTransfer (Some [0x7F]) None;
   EvSpiTransfer None (Some [v]); EvDigitalWrite cs HIGH].

Definition spi_write_frame (cs d : Z) : list Event :=
  [EvDigitalWrite cs LOW; EvSpiTransfer (Some [0x7E; d]) None; EvDigitalWrite cs HIGH].

(** One read of register [a] that delivered [v], on the transport of [d]. *)
Definition read_events (d : CAP1188) (a v : Z) : list Event :=
  if _i2c d
  then [EvI2CRead (to_u8 (_i2cAddress d)) a (Some v)]
  else spi_pointer_frame (to_u8 (_csPin d)) a ++ spi_read_frame (to_u8 (_csPin d)) v.

(** One write of [v] to register [a] on the transport of [d]; [ok] is the
    status the I2C primitive returned (SPI returns none). *)
Definition write_events (d : CAP1188) (ok : bool) (a v : Z) : list Event :=
  if _i2c d
  then [EvI2CWrite (to_u8 (_i2cAddress d)) a v ok]
  else spi_pointer_frame (to_u8 (_csPin d)) a ++ spi_write_frame (to_u8 (_csPin d)) v.

(** What the world looks like after one completed register read or write on
    the transport of [d]: the SPI path leaves the register pointer at the
    address and the chip answering (read) or not (write), the I2C path does
    not touch the SPI interface. *)
Definition world_after_read (d : CAP1188) (a : Z) (w : World) : World :=
  mkWorld (regs w) (if _i2c d then pointer w else a)
          (if _i2c d then reading w else true) (i2c_up w) (junk w)
          (log w ++ read_events d a (reg_get (regs w) a)).

Definition world_after_write (d : CAP1188) (a v : Z) (w : World) : World :=
  mkWorld (reg_set (regs w) a v) (if _i2c d then pointer w else a)
          (if _i2c d then reading w else false) (i2c_up w) (junk w)
          (log w ++ write_events d true a v).

(** *** Concrete benches

    A handle on each transport and a register file in which pads 1 and 3 are
    touched (status 0x05) and the main control register holds 0x21 (standby
    with the interrupt bit set). *)
Definition i2c_handle : CAP1188 := mkCAP1188 true 0x29 5 0.
Definition spi_handle : CAP1188 := mkCAP1188 false 0 5 15.

Definition touched_regs : gmap Z Z := <[0x03 := 0x05]> (<[0x00 := 0x21]> ∅).

Definition bench (d : CAP1188) (up : bool) : State :=
  mkState d (mkWorld touched_regs 0 false up 0xAB []).

(** The same with no pad touched (every register reads 0). *)
Definition idle_bench (d : CAP1188) : State :=
  mkState d (mkWorld ∅ 0 false true 0xAB []).

(** A chip as it leaves the factory as far as the identity registers go
    (product id 0x50, manufacturer id 0x5D, revision 0x83), with 0x39 in the
    standby configuration register, 0xB9 in the averaging register and 0x0A
    in the recalibration configuration register. *)
Definition factory_regs : gmap Z Z :=
  <[0xFD := 0x50]> (<[0xFE := 0x5D]> (<[0xFF := 0x83]>
    (<[0x41 := 0x39]> (<[0x24 := 0xB9]> (<[0x2F := 0x0A]> ∅))))).

Definition factory (d : CAP1188) (up : bool) : State :=
  mkState d (mkWorld factory_regs 0 false up 0x77 []).

(** A computation that leaves the fields of the object alone. *)
Definition keeps_dev {A : Type} (m : M A) : Prop :=
  forall s, dev (after m s) = dev s.

(** Unfolds the SPI engine and normalises the log. *)
Ltac run_spi :=
  unfold result, after, readRegisterFromAddress, writeRegisterAtAddress,
    setRegisterAddress, readRegister, writeRegister, resetSPI;
  cbn; rewrite <- ?app_assoc; cbn.

(** *** Vocabulary of the further properties *)

(** [P] holds of every [uint8_t] value, decided by running through them. *)
Definition all_bytes (P : Z -> bool) : bool :=
  forallb (fun n => P (Z.of_nat n)) (seq 0 256).

(** A computation that leaves the register file alone. *)
Definition keeps_regs {A : Type} (m : M A) : Prop :=
  forall s, regs (hw (after m s)) = regs (hw s).

(** A computation that keeps the object's fields and only appends to the
    log, the appended events satisfying [P] (which may look at the
    fields). *)
Definition appends (P : CAP1188 -> list Event -> Prop) {A : Type} (m : M A) : Prop :=
  forall s,
    dev (after m s) = dev s /\
    exists evs, log (hw (after m s)) = log (hw s) ++ evs /\ P (dev s) evs.

(** Events that change a register: an I2C byte write, or an SPI transfer
    that shifts out the write command 0x7E. *)
Definition is_write_event (e : Event) : bool :=
  match e with
  | EvI2CWrite _ _ _ _ => true
  | EvSpiTransfer (Some (c :: _)) _ => c =? 0x7E
  | _ => false
  end.

Definition no_writes (d : CAP1188) (evs : list Event) : Prop :=
  forallb (fun e => negb (is_write_event e)) evs = true.

(** A computation that changes no register and issues no write. *)
Definition read_only {A : Type} (m : M A) : Prop :=
  keeps_regs m /\ appends no_writes m.

(** Chip-select discipline on pin [cs], read off a stretch of the log:
    [low] tells whether chip select is asserted when the stretch begins; the
    result is its state at the end, or [None] when an SPI transfer happens
    with chip select high, or chip select is driven to the level it already
    has. *)
Fixpoint cs_scan (cs : Z) (low : bool) (evs : list Event) : option bool :=
  match evs with
  | [] => Some low
  | EvDigitalWrite pin level :: rest =>
      if pin =? cs
      then match level, low with
           | LOW, false => cs_scan cs true rest
           | HIGH, true => cs_scan cs false rest
           | _, _ => None
           end
      else cs_scan cs low rest
  | EvSpiTransfer _ _ :: rest => if low then cs_scan cs true rest else None
  | _ :: rest => cs_scan cs low rest
  end.

Definition framed (d : CAP1188) (evs : list Event) : Prop :=
  cs_scan (to_u8 (_csPin d)) false evs = Some false.

(** Events of the I2C transport. *)
Definition uses_i2c (e : Event) : bool :=
  match e with
  | EvI2CRead _ _ _ | EvI2CWrite _ _ _ _ => true
  | _ => false
  end.

(** Every event belongs to the transport the handle selects. *)
Definition on_transport (d : CAP1188) (evs : list Event) : Prop :=
  forallb (fun e => Bool.eqb (uses_i2c e) (_i2c d)) evs = true.

(** Two states, possibly on different transports, whose chips hold the same
    register file and whose transfers complete. *)
Definition same_chip (s1 s2 : State) : Prop :=
  regs (hw s1) = regs (hw s2) /\ transport_up s1 /\ transport_up s2.

(** Run from such states, [m1] and [m2] give results related by [Q] and end
    in such states again. *)
Definition related {A : Type} (Q : A -> A -> Prop) (m1 m2 : M A) : Prop :=
  forall s1 s2,
    same_chip s1 s2 ->
    Q (result m1 s1) (result m2 s2) /\ same_chip (after m1 s1) (after m2 s2).

(** The register holding the threshold of channel [c] (the table of the two
    [switch] statements). *)
Definition threshold_reg {R : RegisterMap} (c : Z) : Z :=
  match c with
  | 1 => CAP1188_SENSOR_INPUT_1_THRESHOLD_REG
  | 2 => CAP1188_SENSOR_INPUT_2_THRESHOLD_REG
  | 3 => CAP1188_SENSOR_INPUT_3_THRESHOLD_REG
  | 4 => CAP1188_SENSOR_INPUT_4_THRESHOLD_REG
  | 5 => CAP1188_SENSOR_INPUT_5_THRESHOLD_REG
  | 6 => CAP1188_SENSOR_INPUT_6_THRESHOLD_REG
  | 7 => CAP1188_SENSOR_INPUT_7_THRESHOLD_REG
  | _ => CAP1188_SENSOR_INPUT_8_THRESHOLD_REG
  end.

(** The handle is on I2C and the bus is down. *)
Definition bus_down (s : State) : Prop :=
  _i2c (dev s) = true /\ i2c_up (hw s) = false.

(** Run on a bus that is down, the computation leaves the bus down and
    touches neither the register file nor what uninitialised locals hold. *)
Definition inert {A : Type} (m : M A) : Prop :=
  forall s,
    bus_down s ->
    bus_down (after m s) /\
    regs (hw (after m s)) = regs (hw s) /\
    junk (hw (after m s)) = junk (hw s).

(** The operations that branch on [_i2c]; the six others are the SPI engine
    itself. *)
Definition selects_transport (o : Operation) : bool :=
  match o with
  | OpReadRegisterFromAddress _ | OpWriteRegisterAtAddress _ _
  | OpResetSPI | OpSetRegisterAddress _ | OpReadRegister | OpWriteRegister _ => false
  | _ => true
  end.

(** ** Fixed-width arithmetic *)

Lemma to_u8_range (z : Z) : is_u8 (to_u8 z).
Proof. unfold is_u8, to_u8. apply Z.mod_pos_bound. lia. Qed.

Lemma to_u8_id (z : Z) : is_u8 z -> to_u8 z = z.
Proof. unfold is_u8, to_u8. intros Hz. apply Z.mod_small. exact Hz. Qed.

(** A [uint8_t] stored in an [int8_t] field and read back as [uint8_t]
    (pin numbers, the I2C address) is unchanged. *)
Lemma u8_i8_u8 (z : Z) : is_u8 z -> to_u8 (to_i8 z) = z.
Proof.
  unfold is_u8, to_u8, to_i8. intros Hz.
  destruct (Z_lt_ge_dec z 128) as [Hlt | Hge].
  - rewrite (Z.mod_small (z + 128)) by lia.
    replace (z + 128 - 128) with z by lia. apply Z.mod_small. lia.
  - replace (z + 128) with ((z - 128) + 1 * 256) by lia.
    rewrite Z.mod_add by lia. rewrite (Z.mod_small (z - 128)) by lia.
    replace (z - 128 - 128) with (z + (-1) * 256) by lia.
    rewrite Z.mod_add by lia. apply Z.mod_small. lia.
Qed.

(** Clearing bit 0 of a byte: [b & ~0x01] stored back into a [uint8_t]. *)
Lemma clear_bit0_bits (b : Z) :
  is_u8 b ->
  Z.testbit (to_u8 (Z.land b (Z.lnot 0x01))) 0 = false /\
  (forall i, i <> 0 -> Z.testbit (to_u8 (Z.land b (Z.lnot 0x01))) i = Z.testbit b i).
Proof.
  intros Hb. unfold to_u8. change 256 with (2 ^ 8).
  split.
  - rewrite Z.mod_pow2_bits_low by lia.
    rewrite Z.land_spec, Z.lnot_spec by lia. cbn. apply andb_false_r.
  - intros i Hi.
    destruct (Z_lt_ge_dec i 0) as [Hneg | Hpos].
    { by rewrite !Z.testbit_neg_r. }
    assert (Hone : Z.testbit 1 i = false).
    { apply (Z.bits_above_log2 1 i); cbn; lia. }
    destruct (Z_lt_ge_dec i 8) as [Hlow | Hhigh].
    + rewrite Z.mod_pow2_bits_low by lia.
      rewrite Z.land_spec, Z.lnot_spec, Hone by lia. cbn. apply andb_true_r.
    + rewrite Z.mod_pow2_bits_high by lia.
      symmetry. rewrite <- (Z.mod_small b (2 ^ 8)) by (unfold is_u8 in Hb; lia).
      apply Z.mod_pow2_bits_high. lia.
Qed.

Lemma reg_get_range (rf : gmap Z Z) (a : Z) : is_u8 (reg_get rf a).
Proof. apply to_u8_range. Qed.

Lemma reg_get_set_same (rf : gmap Z Z) (a d : Z) :
  reg_get (reg_set rf a d) a = to_u8 d.
Proof. unfold reg_get, reg_set. by rewrite lookup_insert_eq. Qed.

Lemma reg_get_set_other (rf : gmap Z Z) (a b d : Z) :
  a <> b -> reg_get (reg_set rf a d) b = reg_get rf b.
Proof. intros Hab. unfold reg_get, reg_set. by rewrite lookup_insert_ne. Qed.

(** ** Sequencing *)

Lemma result_bind {A B : Type} (m : M A) (k : A -> M B) (s : State) :
  result (bind m k) s = result (k (result m s)) (after m s).
Proof. reflexivity. Qed.

Lemma after_bind {A B : Type} (m : M A) (k : A -> M B) (s : State) :
  after (bind m k) s = after (k (result m s)) (after m s).
Proof. reflexivity. Qed.

Lemma after_uninitialised (s : State) : after uninitialised s = s.
Proof. reflexivity. Qed.

Lemma result_if {A : Type} (b : bool) (m1 m2 : M A) (s : State) :
  result (if b then m1 else m2) s = if b then result m1 s else result m2 s.
Proof. by destruct b. Qed.

Lemma after_if {A : Type} (b : bool) (m1 m2 : M A) (s : State) :
  after (if b then m1 else m2) s = if b then after m1 s else after m2 s.
Proof. by destruct b. Qed.

(** ** Computations that keep the object's fields *)

Lemma keeps_dev_ret {A : Type} (a : A) : keeps_dev (ret a).
Proof. intros s. reflexivity. Qed.

Lemma keeps_dev_bind {A B : Type} (m : M A) (k : A -> M B) :
  keeps_dev m -> (forall a, keeps_dev (k a)) -> keeps_dev (bind m k).
Proof.
  intros Hm Hk s. rewrite after_bind. rewrite Hk. apply Hm.
Qed.

Lemma keeps_dev_if {A : Type} (b : bool) (m1 m2 : M A) :
  keeps_dev m1 -> keeps_dev m2 -> keeps_dev (if b then m1 else m2).
Proof. by destruct b. Qed.

Lemma keeps_dev_with_hw (f : World -> World) : keeps_dev (with_hw f).
Proof. intros s. reflexivity. Qed.

Lemma keeps_dev_get_i2c : keeps_dev get_i2c.
Proof. intros s. reflexivity. Qed.

Lemma keeps_dev_get_i2cAddress : keeps_dev get_i2cAddress.
Proof. intros s. reflexivity. Qed.

Lemma keeps_dev_get_resetPin : keeps_dev get_resetPin.
Proof. intros s. reflexivity. Qed.

Lemma keeps_dev_get_csPin : keeps_dev get_csPin.
Proof. intros s. reflexivity. Qed.

Lemma keeps_dev_uninitialised : keeps_dev uninitialised.
Proof. intros s. reflexivity. Qed.

Lemma keeps_dev_pinMode (pin : Z) (mode : PinMode) : keeps_dev (pinMode pin mode).
Proof. apply keeps_dev_with_hw. Qed.

Lemma keeps_dev_digitalWrite (pin : Z) (level : Level) : keeps_dev (digitalWrite pin level).
Proof. apply keeps_dev_with_hw. Qed.

Lemma keeps_dev_delay (ms : Z) : keeps_dev (delay ms).
Proof. apply keeps_dev_with_hw. Qed.

Lemma keeps_dev_SPI_transferBytes (data : option (list Z)) (out : bool) (size : nat) :
  keeps_dev (SPI_transferBytes data out size).
Proof. intros s. reflexivity. Qed.

Lemma keeps_dev_I2Cdev_readByte (devAddr regAddr buf : Z) :
  keeps_dev (I2Cdev_readByte devAddr regAddr buf).
Proof.
  intros s. unfold after, I2Cdev_readByte. by destruct (i2c_up (hw s)).
Qed.

Lemma keeps_dev_I2Cdev_writeByte (devAddr regAddr data : Z) :
  keeps_dev (I2Cdev_writeByte devAddr regAddr data).
Proof.
  intros s. unfold after, I2Cdev_writeByte. by destruct (i2c_up (hw s)).
Qed.

Create HintDb keeps discriminated.
#[local] Hint Resolve keeps_dev_ret keeps_dev_if keeps_dev_get_i2c
  keeps_dev_get_i2cAddress keeps_dev_get_resetPin keeps_dev_get_csPin
  keeps_dev_uninitialised keeps_dev_pinMode keeps_dev_digitalWrite
  keeps_dev_delay keeps_dev_SPI_transferBytes keeps_dev_I2Cdev_readByte
  keeps_dev_I2Cdev_writeByte : keeps.

Ltac keeps :=
  repeat first
    [ apply keeps_dev_bind; [| intros ?]
    | apply keeps_dev_if
    | solve [auto with keeps] ].

Lemma keeps_dev_resetSPI : keeps_dev resetSPI.
Proof. unfold resetSPI. keeps. Qed.

Lemma keeps_dev_setRegisterAddress (a : Z) : keeps_dev (setRegisterAddress a).
Proof. unfold setRegisterAddress. keeps. Qed.

Lemma keeps_dev_readRegister : keeps_dev readRegister.
Proof. unfold readRegister. keeps. Qed.

Lemma keeps_dev_writeRegister (d : Z) : keeps_dev (writeRegister d).
Proof. unfold writeRegister. keeps. Qed.

#[local] Hint Resolve keeps_dev_resetSPI keeps_dev_setRegisterAddress
  keeps_dev_readRegister keeps_dev_writeRegister : keeps.

Lemma keeps_dev_writeRegisterAtAddress (a d : Z) : keeps_dev (writeRegisterAtAddress a d).
Proof. unfold writeRegisterAtAddress. keeps. Qed.

Lemma keeps_dev_readRegisterFromAddress (a : Z) : keeps_dev (readRegisterFromAddress a).
Proof. unfold readRegisterFromAddress. keeps. Qed.

#[local] Hint Resolve keeps_dev_writeRegisterAtAddress
  keeps_dev_readRegisterFromAddress : keeps.

Section Proofs.
Context {R : RegisterMap}.

(** ** Transport selection *)

Lemma selectRead_result (a buf : Z) (s : State) :
  transport_up s -> result (selectRead a buf) s = reg_get (regs (hw s)) a.
Proof.
  destruct s as [[i ad rp cs] [rf p rd up jk l]]. unfold transport_up. cbn.
  intros Hup. destruct i; cbn.
  - rewrite Hup by reflexivity. reflexivity.
  - reflexivity.
Qed.

Lemma selectRead_after (a buf : Z) (s : State) :
  transport_up s ->
  after (selectRead a buf) s = mkState (dev s) (world_after_read (dev s) a (hw s)).
Proof.
  destruct s as [[i ad rp cs] [rf p rd up jk l]]. unfold transport_up. cbn.
  intros Hup. destruct i; cbn.
  - rewrite Hup by reflexivity. reflexivity.
  - unfold world_after_read, read_events, emit. cbn. by rewrite <- !app_assoc.
Qed.

Lemma selectWrite_after (a v : Z) (s : State) :
  transport_up s ->
  after (selectWrite a v) s = mkState (dev s) (world_after_write (dev s) a v (hw s)).
Proof.
  destruct s as [[i ad rp cs] [rf p rd up jk l]]. unfold transport_up. cbn.
  intros Hup. destruct i; cbn.
  - rewrite Hup by reflexivity. reflexivity.
  - unfold world_after_write, write_events, emit. cbn. by rewrite <- !app_assoc.
Qed.

(** Whatever the health of the bus, a write is one attempt on the wire. *)
Lemma selectWrite_log (a v : Z) (s : State) :
  log (hw (after (selectWrite a v) s)) =
  log (hw s) ++ write_events (dev s) (i2c_up (hw s)) a v.
Proof.
  destruct s as [[i ad rp cs] [rf p rd up jk l]].
  destruct i, up; cbn; rewrite <- ?app_assoc; reflexivity.
Qed.

Lemma transport_up_after_read (d : CAP1188) (a : Z) (w : World) :
  transport_up (mkState d w) -> transport_up (mkState d (world_after_read d a w)).
Proof. unfold transport_up. cbn. auto. Qed.

Lemma transport_up_after_write (d : CAP1188) (a v : Z) (w : World) :
  transport_up (mkState d w) -> transport_up (mkState d (world_after_write d a v w)).
Proof. unfold transport_up. cbn. auto. Qed.

(** ** The SPI command engine *)

(** C2. For every register address, [readRegisterFromAddress] logs exactly
    two chip-select-framed transactions: chip select low, the two bytes
    0x7D and the address, chip select high; then chip select low, the single
    byte 0x7F, one reply byte captured, chip select high.  The captured byte
    is the value returned (and it is the content of the addressed register
    of the simulated chip). *)
Theorem readRegisterFromAddress_frames (regAddress : Z) (s : State) :
  let cs := to_u8 (_csPin (dev s)) in
  let v := result (readRegisterFromAddress regAddress) s in
  log (hw (after (readRegisterFromAddress regAddress) s)) =
    log (hw s) ++
    [ EvDigitalWrite cs LOW;
      EvSpiTransfer (Some [0x7D; regAddress]) None;
      EvDigitalWrite cs HIGH;
      EvDigitalWrite cs LOW;
      EvSpiTransfer (Some [0x7F]) None;
      EvSpiTransfer None (Some [v]);
      EvDigitalWrite cs HIGH ]
  /\ v = reg_get (regs (hw s)) regAddress.
Proof. run_spi. split; reflexivity. Qed.

(** C3. For every register address and data byte, [writeRegisterAtAddress]
    logs exactly the bytes 0x7D, address and then 0x7E, data, each command in
    its own chip-select frame (low before, high after), and no transfer
    captures a byte. *)
Theorem writeRegisterAtAddress_frames (regAddress data : Z) (s : State) :
  let cs := to_u8 (_csPin (dev s)) in
  log (hw (after (writeRegisterAtAddress regAddress data) s)) =
    log (hw s) ++
    [ EvDigitalWrite cs LOW;
      EvSpiTransfer (Some [0x7D; regAddress]) None;
      EvDigitalWrite cs HIGH;
      EvDigitalWrite cs LOW;
      EvSpiTransfer (Some [0x7E; data]) None;
      EvDigitalWrite cs HIGH ].
Proof. run_spi. reflexivity. Qed.

(** ** Reading the sensor inputs *)

(** C1. On a working transport and for every register file,
    [getSensorInputs] returns the byte held by the sensor-input-status
    register before the call.  When that byte is non-zero the call goes on
    with exactly one read of the main-control register followed by exactly
    one write to it, and the value written is the byte just read with bit 0
    cleared and every other bit unchanged; when the byte is zero the status
    read is the only register access. *)
Theorem getSensorInputs_spec (s : State) :
  transport_up s ->
  let keys := reg_get (regs (hw s)) CAP1188_SENSOR_INPUT_STATUS_REG in
  let current := reg_get (regs (hw s)) CAP1188_MAIN_CONTROL_REG in
  let cleared := to_u8 (Z.land current (Z.lnot 0x01)) in
  result getSensorInputs s = keys /\
  log (hw (after getSensorInputs s)) =
    log (hw s) ++
    read_events (dev s) CAP1188_SENSOR_INPUT_STATUS_REG keys ++
    (if keys =? 0 then []
     else read_events (dev s) CAP1188_MAIN_CONTROL_REG current ++
          write_events (dev s) true CAP1188_MAIN_CONTROL_REG cleared) /\
  regs (hw (after getSensorInputs s)) =
    (if keys =? 0 then regs (hw s)
     else reg_set (regs (hw s)) CAP1188_MAIN_CONTROL_REG cleared) /\
  Z.testbit cleared 0 = false /\
  (forall i, i <> 0 -> Z.testbit cleared i = Z.testbit current i).
Proof.
  intros Hup keys current cleared.
  assert (Hbits := clear_bit0_bits current (reg_get_range _ _)).
  destruct Hbits as [Hbit0 Hrest].
  unfold getSensorInputs.
  rewrite !result_bind, !after_bind, after_uninitialised.
  rewrite selectRead_result, selectRead_after by exact Hup.
  fold keys. rewrite result_if, after_if.
  destruct s as [d w]. cbn [dev hw] in *.
  destruct (keys =? 0) eqn:Hkeys.
  - cbn. rewrite app_nil_r. auto.
  - rewrite !result_bind, !after_bind, after_uninitialised.
    assert (Hup1 := transport_up_after_read d CAP1188_SENSOR_INPUT_STATUS_REG w Hup).
    rewrite selectRead_result, selectRead_after by exact Hup1.
    cbn [dev hw regs world_after_read]. fold current. fold cleared.
    rewrite selectWrite_after by (apply transport_up_after_read; exact Hup).
    cbn. rewrite <- !app_assoc. auto.
Qed.

(** On an I2C bus that is down nothing is read: the result is what the
    uninitialised local held, and the register file is left as it was. *)
Lemma getSensorInputs_bus_down (s : State) :
  _i2c (dev s) = true ->
  i2c_up (hw s) = false ->
  result getSensorInputs s = to_u8 (junk (hw s)) /\
  regs (hw (after getSensorInputs s)) = regs (hw s).
Proof.
  destruct s as [[i ad rp cs] [rf p rd up jk l]]. cbn [dev hw _i2c i2c_up junk regs].
  intros -> ->. unfold getSensorInputs.
  rewrite !result_bind, !after_bind, after_uninitialised, result_if, after_if.
  change (result (selectRead CAP1188_SENSOR_INPUT_STATUS_REG _) _) with (to_u8 jk).
  destruct (to_u8 jk =? 0); split; reflexivity.
Qed.

(** ** Multiple-touch configuration *)

Lemma setMultipleTouchConfiguration_write (enable : bool) (n code : Z) (s : State) :
  setMultipleTouchConfiguration enable n =
    (selectWrite CAP1188_MULTIPLE_TOUCH_CONFIGURATION_REG code ;; ret true) ->
  result (setMultipleTouchConfiguration enable n) s = true /\
  log (hw (after (setMultipleTouchConfiguration enable n) s)) =
    log (hw s) ++
    write_events (dev s) (i2c_up (hw s)) CAP1188_MULTIPLE_TOUCH_CONFIGURATION_REG code /\
  (transport_up s ->
   regs (hw (after (setMultipleTouchConfiguration enable n) s)) =
     reg_set (regs (hw s)) CAP1188_MULTIPLE_TOUCH_CONFIGURATION_REG code).
Proof.
  intros ->. split; [reflexivity|].
  rewrite after_bind. change (after (ret true)) with (fun s' : State => s').
  cbv beta. split.
  - apply selectWrite_log.
  - intros Hup. by rewrite selectWrite_after.
Qed.

(** C5. With the circuitry disabled, [setMultipleTouchConfiguration]
    writes 0x00 to the multiple-touch configuration register and returns true
    whatever the count; enabled with a count of 1, 2, 3 or 4 it writes 128,
    132, 136 or 140 and returns true; enabled with any other count it returns
    false and leaves the whole state, log included, as it was. *)
Theorem setMultipleTouchConfiguration_spec (s : State) :
  (forall n,
     result (setMultipleTouchConfiguration false n) s = true /\
     log (hw (after (setMultipleTouchConfiguration false n) s)) =
       log (hw s) ++
       write_events (dev s) (i2c_up (hw s)) CAP1188_MULTIPLE_TOUCH_CONFIGURATION_REG 0x00 /\
     (transport_up s ->
      regs (hw (after (setMultipleTouchConfiguration false n) s)) =
        reg_set (regs (hw s)) CAP1188_MULTIPLE_TOUCH_CONFIGURATION_REG 0x00)) /\
  (forall n code,
     In (n, code) [(1, 128); (2, 132); (3, 136); (4, 140)] ->
     result (setMultipleTouchConfiguration true n) s = true /\
     log (hw (after (setMultipleTouchConfiguration true n) s)) =
       log (hw s) ++
       write_events (dev s) (i2c_up (hw s)) CAP1188_MULTIPLE_TOUCH_CONFIGURATION_REG code /\
     (transport_up s ->
      regs (hw (after (setMultipleTouchConfiguration true n) s)) =
        reg_set (regs (hw s)) CAP1188_MULTIPLE_TOUCH_CONFIGURATION_REG code)) /\
  (forall n,
     ~ (1 <= n <= 4) ->
     result (setMultipleTouchConfiguration true n) s = false /\
     after (setMultipleTouchConfiguration true n) s = s).
Proof.
  split; [|split].
  - intros n. by apply setMultipleTouchConfiguration_write.
  - intros n code Hin. cbn in Hin.
    destruct Hin as [H | [H | [H | [H | []]]]]; inversion H; subst;
      by apply setMultipleTouchConfiguration_write.
  - intros n Hn. unfold setMultipleTouchConfiguration.
    destruct n as [|p|p]; [by split | | by split].
    do 3 (try destruct p as [p|p|]); try (by split); lia.
Qed.

(** ** Per-channel thresholds *)

(** C6. For a channel number outside 1..8, [setSensorInputThreshold]
    returns false and [getSensorInputThreshold] returns its error value 0, and
    neither touches the hardware: the state after the call, register file and
    log included, is the state before. *)
Theorem threshold_invalid_channel (c v : Z) (s : State) :
  ~ (1 <= c <= 8) ->
  result (setSensorInputThreshold c v) s = false /\
  after (setSensorInputThreshold c v) s = s /\
  result (getSensorInputThreshold c) s = 0 /\
  after (getSensorInputThreshold c) s = s.
Proof.
  intros Hc. unfold setSensorInputThreshold, getSensorInputThreshold.
  rewrite result_bind, after_bind, after_uninitialised.
  destruct c as [|p|p]; [by repeat split | | by repeat split].
  do 4 (try destruct p as [p|p|]); try (by repeat split); lia.
Qed.

(** Both threshold methods select the same register for a valid channel. *)
Lemma threshold_same_register (c v : Z) :
  1 <= c <= 8 ->
  exists reg,
    setSensorInputThreshold c v = (selectWrite reg v ;; ret true) /\
    getSensorInputThreshold c = (buf <- uninitialised ;; selectRead reg buf).
Proof.
  intros Hc.
  assert (Hcases : c = 1 \/ c = 2 \/ c = 3 \/ c = 4 \/ c = 5 \/ c = 6 \/ c = 7 \/ c = 8) by lia.
  destruct Hcases as [-> | [-> | [-> | [-> | [-> | [-> | [-> | ->]]]]]]];
    eexists; split; reflexivity.
Qed.

(** C7. For a channel in 1..8 and a threshold byte [v], on a working
    transport, [getSensorInputThreshold c] run after
    [setSensorInputThreshold c v] returns [v]. *)
Theorem threshold_round_trip (c v : Z) (s : State) :
  1 <= c <= 8 ->
  is_u8 v ->
  transport_up s ->
  result (getSensorInputThreshold c) (after (setSensorInputThreshold c v) s) = v.
Proof.
  intros Hc Hv Hup.
  destruct (threshold_same_register c v Hc) as (reg & -> & ->).
  rewrite after_bind, result_bind, after_uninitialised.
  change (after (ret true)) with (fun s' : State => s'). cbv beta.
  rewrite selectWrite_after by exact Hup.
  rewrite selectRead_result.
  - cbn. rewrite reg_get_set_same. by apply to_u8_id.
  - destruct s as [d w]. by apply transport_up_after_write.
Qed.

(** ** Standby configuration *)

(** The packing of [setStandbyConfiguration] undone by the shifts and masks
    of [getStandbyConfiguration], once the byte went through a register. *)
Lemma standby_fields (a spm st ct : Z) :
  0 <= a <= 1 -> 0 <= spm <= 7 -> 0 <= st <= 3 -> 0 <= ct <= 3 ->
  let reg :=
    to_u8 (to_u8 (Z.lor (Z.lor (Z.lor (Z.shiftl a 7) (Z.shiftl spm 4)) (Z.shiftl st 2)) ct)) in
  to_u8 (Z.shiftr reg 7) = a /\
  to_u8 (Z.land (Z.shiftr reg 4) 0x07) = spm /\
  to_u8 (Z.land (Z.shiftr reg 2) 0x03) = st /\
  to_u8 (Z.land reg 0x03) = ct.
Proof.
  intros Ha Hspm Hst Hct.
  assert (Ea : a = 0 \/ a = 1) by lia.
  assert (Espm : spm = 0 \/ spm = 1 \/ spm = 2 \/ spm = 3 \/
                 spm = 4 \/ spm = 5 \/ spm = 6 \/ spm = 7) by lia.
  assert (Est : st = 0 \/ st = 1 \/ st = 2 \/ st = 3) by lia.
  assert (Ect : ct = 0 \/ ct = 1 \/ ct = 2 \/ ct = 3) by lia.
  clear Ha Hspm Hst Hct.
  destruct Ea as [-> | ->];
    destruct Espm as [-> | [-> | [-> | [-> | [-> | [-> | [-> | ->]]]]]]];
    destruct Est as [-> | [-> | [-> | ->]]];
    destruct Ect as [-> | [-> | [-> | ->]]];
    vm_compute; repeat split; reflexivity.
Qed.

(** C10. For averageSum in 0..1, samplesPerMeasurement in 0..7,
    samplingTime in 0..3 and cycleTime in 0..3, on a working transport,
    [getStandbyConfiguration] run after [setStandbyConfiguration] yields
    exactly those four values. *)
Theorem standby_round_trip (averageSum samplesPerMeasurement samplingTime cycleTime : Z)
    (s : State) :
  0 <= averageSum <= 1 ->
  0 <= samplesPerMeasurement <= 7 ->
  0 <= samplingTime <= 3 ->
  0 <= cycleTime <= 3 ->
  transport_up s ->
  result getStandbyConfiguration
    (after (setStandbyConfiguration averageSum samplesPerMeasurement samplingTime cycleTime) s)
  = (true, (averageSum, samplesPerMeasurement, samplingTime, cycleTime)).
Proof.
  intros Ha Hspm Hst Hct Hup.
  unfold setStandbyConfiguration, getStandbyConfiguration.
  rewrite after_bind, !result_bind, after_uninitialised.
  change (after (ret true)) with (fun s' : State => s'). cbv beta.
  rewrite selectWrite_after by exact Hup.
  rewrite selectRead_result
    by (destruct s as [d w]; by apply transport_up_after_write).
  cbn [hw regs world_after_write]. rewrite reg_get_set_same.
  destruct (standby_fields _ _ _ _ Ha Hspm Hst Hct) as (-> & -> & -> & ->).
  reflexivity.
Qed.

(** [setStandbyConfiguration] validates nothing: it reports success for
    any arguments. *)
Lemma setStandbyConfiguration_unchecked (a spm st ct : Z) (s : State) :
  result (setStandbyConfiguration a spm st ct) s = true.
Proof. reflexivity. Qed.

(** ** Initialisation *)

(** C8. [initI2C] and [initSPI] drive the reset pin high, wait 10 ms and
    drive it low before anything is sent to the chip; [initSPI] then sends
    the chip-select-framed command 0x7A 0x7A; only after that come the two
    register writes of the default configuration.  The handle's fields are
    set from the arguments. *)
Theorem init_reset_sequence (address csPin resetPin : Z) (s : State) :
  is_u8 address -> is_u8 csPin -> is_u8 resetPin ->
  let up := i2c_up (hw s) in
  let si := after (initI2C address resetPin) s in
  let ss := after (initSPI csPin resetPin) s in
  dev si = mkCAP1188 true (to_i8 address) (to_i8 resetPin) (_csPin (dev s)) /\
  log (hw si) =
    log (hw s) ++
    [ EvPinMode resetPin OUTPUT;
      EvDigitalWrite resetPin HIGH; EvDelay 10; EvDigitalWrite resetPin LOW ] ++
    write_events (dev si) up CAP1188_MULTIPLE_TOUCH_CONFIGURATION_REG 0 ++
    write_events (dev si) up CAP1188_SENSOR_INPUT_LED_LINKING_REG 255 /\
  dev ss = mkCAP1188 false (_i2cAddress (dev s)) (to_i8 resetPin) (to_i8 csPin) /\
  log (hw ss) =
    log (hw s) ++
    [ EvPinMode resetPin OUTPUT; EvPinMode csPin OUTPUT;
      EvDigitalWrite resetPin HIGH; EvDelay 10; EvDigitalWrite resetPin LOW ] ++
    [ EvDigitalWrite csPin LOW; EvSpiTransfer (Some [0x7A; 0x7A]) None;
      EvDigitalWrite csPin HIGH ] ++
    write_events (dev ss) up CAP1188_MULTIPLE_TOUCH_CONFIGURATION_REG 0 ++
    write_events (dev ss) up CAP1188_SENSOR_INPUT_LED_LINKING_REG 255.
Proof.
  intros Haddr Hcs Hrst.
  destruct s as [[i ad rp cs] [rf p rd up jk l]].
  cbn zeta. unfold after, initI2C, initSPI.
  repeat split.
  - by destruct up.
  - destruct up; cbn; rewrite <- ?app_assoc; cbn;
      by rewrite !(u8_i8_u8 resetPin Hrst), !(u8_i8_u8 address Haddr).
  - run_spi.
    by rewrite !(u8_i8_u8 resetPin Hrst), !(u8_i8_u8 csPin Hcs).
Qed.

(** ** The handle after initialisation *)

Lemma keeps_dev_selectRead (a buf : Z) : keeps_dev (selectRead a buf).
Proof. unfold selectRead. keeps. Qed.

Lemma keeps_dev_selectWrite (a v : Z) : keeps_dev (selectWrite a v).
Proof. unfold selectWrite. keeps. Qed.

#[local] Hint Resolve keeps_dev_selectRead keeps_dev_selectWrite : keeps.

Lemma keeps_dev_perform (o : Operation) : keeps_dev (perform o).
Proof.
  destruct o; unfold perform, drop.
  - unfold getProductId. keeps.
  - unfold getManufacturerId. keeps.
  - unfold getRevision. keeps.
  - unfold getSensorInputs. keeps.
  - unfold setMultipleTouchConfiguration.
    apply keeps_dev_bind; [| auto with keeps].
    destruct enable; [destruct count as [|p|p]; [| do 3 (try destruct p as [p|p|]) |] |];
      cbn; keeps.
  - unfold setSensorInputLEDLinking. keeps.
  - unfold setStandbyConfiguration. keeps.
  - unfold getStandbyConfiguration. keeps.
  - unfold setAveragingAndSamplingConfig. keeps.
  - unfold getAveragingAndSamplingConfig. keeps.
  - unfold setSensorInputThreshold.
    apply keeps_dev_bind; [| auto with keeps].
    destruct buttonNumber as [|p|p]; [keeps | | keeps].
    do 4 (try destruct p as [p|p|]); cbn; keeps.
  - unfold setSensorInputThresholdAll. keeps.
  - unfold getSensorInputThreshold.
    apply keeps_dev_bind; [| auto with keeps].
    apply keeps_dev_bind; [auto with keeps | intros reg].
    destruct buttonNumber as [|p|p]; [keeps | | keeps].
    do 4 (try destruct p as [p|p|]); cbn; keeps.
  - keeps.
  - keeps.
  - keeps.
  - keeps.
  - keeps.
  - keeps.
Qed.

(** C9. No operation other than [initI2C] and [initSPI] writes [_i2c],
    [_i2cAddress], [_csPin] or [_resetPin]: after any of them, public or
    private, the four fields hold what they held before. *)
Theorem operations_keep_handle (o : Operation) (s : State) :
  _i2c (dev (after (perform o) s)) = _i2c (dev s) /\
  _i2cAddress (dev (after (perform o) s)) = _i2cAddress (dev s) /\
  _csPin (dev (after (perform o) s)) = _csPin (dev s) /\
  _resetPin (dev (after (perform o) s)) = _resetPin (dev s).
Proof.
  rewrite (keeps_dev_perform o s). auto.
Qed.

(** The same along any sequence of operations. *)
Lemma keeps_dev_perform_all (ops : list Operation) : keeps_dev (perform_all ops).
Proof.
  induction ops as [| o rest IH]; cbn [perform_all].
  - apply keeps_dev_ret.
  - apply keeps_dev_bind; [apply keeps_dev_perform | intros _; exact IH].
Qed.

(** ** Transport failures *)

(** C4, as the code has it. The status of the transfer primitives never
    reaches the caller: whatever the health of the bus, the write operations
    return true ([setMultipleTouchConfiguration] and
    [setSensorInputThreshold] return false for an invalid argument only), and
    a register write is a single attempt on the wire, never repeated. *)
Theorem transport_status_discarded (s : State) :
  (forall v, result (setSensorInputLEDLinking v) s = true) /\
  (forall a d, result (writeRegisterAtAddress a d) s = true) /\
  (forall a b c d, result (setStandbyConfiguration a b c d) s = true) /\
  (forall a b c, result (setAveragingAndSamplingConfig a b c) s = true) /\
  (forall e n,
     result (setMultipleTouchConfiguration e n) s = negb e || ((1 <=? n) && (n <=? 4))) /\
  (forall c v, result (setSensorInputThreshold c v) s = (1 <=? c) && (c <=? 8)) /\
  (forall a d,
     log (hw (after (selectWrite a d) s)) =
     log (hw s) ++ write_events (dev s) (i2c_up (hw s)) a d).
Proof.
  repeat split.
  - intros [|] n; [| reflexivity].
    destruct n as [|p|p]; [reflexivity | | reflexivity].
    do 3 (try destruct p as [p|p|]); reflexivity.
  - intros c v.
    destruct c as [|p|p]; [reflexivity | | reflexivity].
    do 4 (try destruct p as [p|p|]); reflexivity.
  - intros a d. apply selectWrite_log.
Qed.

End Proofs.

(** ** The statements at concrete inputs *)

Lemma bench_up (d : CAP1188) : transport_up (bench d true).
Proof. intros _. reflexivity. Defined.

Lemma bench_spi (up : bool) : transport_up (bench spi_handle up).
Proof. intros Hi2c. discriminate Hi2c. Defined.

Lemma idle_bench_up (d : CAP1188) : transport_up (idle_bench d).
Proof. intros _. reflexivity. Defined.

(** Pads 1 and 3 touched, over I2C: the status byte comes back and the
    interrupt bit of the main control register is cleared (0x21 to 0x20).
    No pad touched, over SPI: 0 comes back after the status read alone. *)
Lemma getSensorInputs_witness :
  (transport_up (bench i2c_handle true) /\
   result (getSensorInputs (R := datasheet_regs)) (bench i2c_handle true) = 0x05 /\
   log (hw (after (getSensorInputs (R := datasheet_regs)) (bench i2c_handle true))) =
     [ EvI2CRead 0x29 0x03 (Some 0x05);
       EvI2CRead 0x29 0x00 (Some 0x21);
       EvI2CWrite 0x29 0x00 0x20 true ]) /\
  (transport_up (idle_bench spi_handle) /\
   result (getSensorInputs (R := datasheet_regs)) (idle_bench spi_handle) = 0x00 /\
   log (hw (after (getSensorInputs (R := datasheet_regs)) (idle_bench spi_handle))) =
     [ EvDigitalWrite 15 LOW; EvSpiTransfer (Some [0x7D; 0x03]) None; EvDigitalWrite 15 HIGH;
       EvDigitalWrite 15 LOW; EvSpiTransfer (Some [0x7F]) None;
       EvSpiTransfer None (Some [0x00]); EvDigitalWrite 15 HIGH ]).
Proof.
  split.
  - split; [apply bench_up |].
    destruct (getSensorInputs_spec (R := datasheet_regs) _ (bench_up i2c_handle))
      as (Hres & Hlog & _).
    split; [exact Hres | exact Hlog].
  - split; [apply idle_bench_up |].
    destruct (getSensorInputs_spec (R := datasheet_regs) _ (idle_bench_up spi_handle))
      as (Hres & Hlog & _).
    split; [exact Hres | exact Hlog].
Defined.

(** C4 as stated fails: on a bus whose transfers fail, the I2C primitive
    reports the failure (false) and [setSensorInputLEDLinking] still returns
    true, after a single attempt; a read returns what the uninitialised
    local held (0xAB) rather than the product id. *)
Lemma failure_not_propagated :
  result (I2Cdev_writeByte 0x29 0x72 0xFF) (bench i2c_handle false) = false /\
  result (setSensorInputLEDLinking (R := datasheet_regs) 0xFF) (bench i2c_handle false) = true /\
  log (hw (after (setSensorInputLEDLinking (R := datasheet_regs) 0xFF) (bench i2c_handle false))) =
    [ EvI2CWrite 0x29 0x72 0xFF false ] /\
  result (getProductId (R := datasheet_regs)) (bench i2c_handle false) = 0xAB.
Proof. repeat split. Qed.

(** Disabled with a stray count, enabled for three touches, enabled for
    seven. *)
Lemma setMultipleTouchConfiguration_witness :
  (result (setMultipleTouchConfiguration (R := datasheet_regs) false 9) (bench i2c_handle true) = true /\
   log (hw (after (setMultipleTouchConfiguration (R := datasheet_regs) false 9)
                  (bench i2c_handle true))) =
     [ EvI2CWrite 0x29 0x2A 0x00 true ]) /\
  (result (setMultipleTouchConfiguration (R := datasheet_regs) true 3) (bench i2c_handle true) = true /\
   log (hw (after (setMultipleTouchConfiguration (R := datasheet_regs) true 3)
                  (bench i2c_handle true))) =
     [ EvI2CWrite 0x29 0x2A 136 true ]) /\
  (result (setMultipleTouchConfiguration (R := datasheet_regs) true 7) (bench i2c_handle true) = false /\
   after (setMultipleTouchConfiguration (R := datasheet_regs) true 7) (bench i2c_handle true) =
     bench i2c_handle true).
Proof.
  destruct (setMultipleTouchConfiguration_spec (R := datasheet_regs) (bench i2c_handle true))
    as (Hoff & Hon & Hbad).
  split; [| split].
  - destruct (Hoff 9) as (Hres & Hlog & _). split; [exact Hres | exact Hlog].
  - assert (Hin : In (3, 136) [(1, 128); (2, 132); (3, 136); (4, 140)])
      by (right; right; left; reflexivity).
    destruct (Hon 3 136 Hin) as (Hres & Hlog & _). split; [exact Hres | exact Hlog].
  - apply Hbad. lia.
Defined.

(** Channels 0, 9 and 255. *)
Lemma threshold_invalid_channel_witness :
  (result (setSensorInputThreshold (R := datasheet_regs) 0 0x40) (bench spi_handle true) = false /\
   after (setSensorInputThreshold (R := datasheet_regs) 0 0x40) (bench spi_handle true) =
     bench spi_handle true /\
   result (getSensorInputThreshold (R := datasheet_regs) 0) (bench spi_handle true) = 0 /\
   after (getSensorInputThreshold (R := datasheet_regs) 0) (bench spi_handle true) =
     bench spi_handle true) /\
  (result (setSensorInputThreshold (R := datasheet_regs) 9 0x40) (bench spi_handle true) = false /\
   after (setSensorInputThreshold (R := datasheet_regs) 9 0x40) (bench spi_handle true) =
     bench spi_handle true /\
   result (getSensorInputThreshold (R := datasheet_regs) 9) (bench spi_handle true) = 0 /\
   after (getSensorInputThreshold (R := datasheet_regs) 9) (bench spi_handle true) =
     bench spi_handle true) /\
  (result (setSensorInputThreshold (R := datasheet_regs) 255 0x40) (bench i2c_handle true) = false /\
   after (setSensorInputThreshold (R := datasheet_regs) 255 0x40) (bench i2c_handle true) =
     bench i2c_handle true /\
   result (getSensorInputThreshold (R := datasheet_regs) 255) (bench i2c_handle true) = 0 /\
   after (getSensorInputThreshold (R := datasheet_regs) 255) (bench i2c_handle true) =
     bench i2c_handle true).
Proof.
  split; [| split]; apply (threshold_invalid_channel (R := datasheet_regs)); lia.
Defined.

(** Threshold 0x40 on channel 3 over SPI, threshold 0x08 on channel 8 over
    I2C. *)
Lemma threshold_round_trip_witness :
  result (getSensorInputThreshold (R := datasheet_regs) 3)
    (after (setSensorInputThreshold (R := datasheet_regs) 3 0x40) (bench spi_handle false)) = 0x40 /\
  result (getSensorInputThreshold (R := datasheet_regs) 8)
    (after (setSensorInputThreshold (R := datasheet_regs) 8 0x08) (bench i2c_handle true)) = 0x08.
Proof.
  split.
  - apply (threshold_round_trip (R := datasheet_regs));
      [lia | unfold is_u8; lia | apply bench_spi].
  - apply (threshold_round_trip (R := datasheet_regs));
      [lia | unfold is_u8; lia | apply bench_up].
Defined.

(** Summation, 8 samples, 1.28 ms, 70 ms (the option macros of CAP1188.h). *)
Lemma standby_round_trip_witness :
  result (getStandbyConfiguration (R := datasheet_regs))
    (after (setStandbyConfiguration (R := datasheet_regs) 0x01 0x03 0x02 0x01)
           (bench spi_handle true))
  = (true, (0x01, 0x03, 0x02, 0x01)).
Proof.
  apply (standby_round_trip (R := datasheet_regs)); [lia | lia | lia | lia | apply bench_spi].
Defined.

(** Outside the ranges the fields overlap: a cycle time of 4 comes back as
    sampling time 1 and cycle time 0. *)
Example standby_out_of_range :
  result (setStandbyConfiguration (R := datasheet_regs) 0 0 0 4) (bench spi_handle true) = true /\
  result (getStandbyConfiguration (R := datasheet_regs))
    (after (setStandbyConfiguration (R := datasheet_regs) 0 0 0 4) (bench spi_handle true))
  = (true, (0, 0, 1, 0)).
Proof. split; reflexivity. Qed.

(** I2C address 0x29, chip select on pin 15, reset on pin 5. *)
Lemma init_reset_sequence_witness :
  log (hw (after (initI2C (R := datasheet_regs) 0x29 5) (bench spi_handle true))) =
    [ EvPinMode 5 OUTPUT;
      EvDigitalWrite 5 HIGH; EvDelay 10; EvDigitalWrite 5 LOW;
      EvI2CWrite 0x29 0x2A 0 true;
      EvI2CWrite 0x29 0x72 255 true ] /\
  log (hw (after (initSPI (R := datasheet_regs) 15 5) (bench i2c_handle true))) =
    [ EvPinMode 5 OUTPUT; EvPinMode 15 OUTPUT;
      EvDigitalWrite 5 HIGH; EvDelay 10; EvDigitalWrite 5 LOW;
      EvDigitalWrite 15 LOW; EvSpiTransfer (Some [0x7A; 0x7A]) None; EvDigitalWrite 15 HIGH;
      EvDigitalWrite 15 LOW; EvSpiTransfer (Some [0x7D; 0x2A]) None; EvDigitalWrite 15 HIGH;
      EvDigitalWrite 15 LOW; EvSpiTransfer (Some [0x7E; 0]) None; EvDigitalWrite 15 HIGH;
      EvDigitalWrite 15 LOW; EvSpiTransfer (Some [0x7D; 0x72]) None; EvDigitalWrite 15 HIGH;
      EvDigitalWrite 15 LOW; EvSpiTransfer (Some [0x7E; 255]) None; EvDigitalWrite 15 HIGH ].
Proof.
  assert (H29 : is_u8 0x29) by (unfold is_u8; lia).
  assert (H15 : is_u8 15) by (unfold is_u8; lia).
  assert (H5 : is_u8 5) by (unfold is_u8; lia).
  split.
  - destruct (init_reset_sequence (R := datasheet_regs) 0x29 15 5 (bench spi_handle true)
                H29 H15 H5) as (_ & Hlog & _).
    exact Hlog.
  - destruct (init_reset_sequence (R := datasheet_regs) 0x29 15 5 (bench i2c_handle true)
                H29 H15 H5) as (_ & _ & _ & Hlog).
    exact Hlog.
Defined.

(** * Further properties of the driver *)

(** ** Bytes *)

Lemma all_bytes_spec (P : Z -> bool) :
  all_bytes P = true -> forall b, is_u8 b -> P b = true.
Proof.
  unfold all_bytes, is_u8. intros Hall b Hb.
  rewrite forallb_forall in Hall.
  specialize (Hall (Z.to_nat b)).
  rewrite Z2Nat.id in Hall by lia.
  apply Hall. apply in_seq. lia.
Qed.

(** The packing of [setAveragingAndSamplingConfig] undone by the shifts and
    masks of [getAveragingAndSamplingConfig]. *)
Lemma averaging_fields (spm st ct : Z) :
  0 <= spm <= 7 -> 0 <= st <= 3 -> 0 <= ct <= 3 ->
  let reg := to_u8 (to_u8 (Z.lor (Z.lor (Z.shiftl spm 4) (Z.shiftl st 2)) ct)) in
  to_u8 (Z.land (Z.shiftr reg 4) 0x07) = spm /\
  to_u8 (Z.land (Z.shiftr reg 2) 0x03) = st /\
  to_u8 (Z.land reg 0x03) = ct.
Proof.
  intros Hspm Hst Hct.
  assert (Espm : spm = 0 \/ spm = 1 \/ spm = 2 \/ spm = 3 \/
                 spm = 4 \/ spm = 5 \/ spm = 6 \/ spm = 7) by lia.
  assert (Est : st = 0 \/ st = 1 \/ st = 2 \/ st = 3) by lia.
  assert (Ect : ct = 0 \/ ct = 1 \/ ct = 2 \/ ct = 3) by lia.
  clear Hspm Hst Hct.
  destruct Espm as [-> | [-> | [-> | [-> | [-> | [-> | [-> | ->]]]]]]];
    destruct Est as [-> | [-> | [-> | ->]]];
    destruct Ect as [-> | [-> | [-> | ->]]];
    vm_compute; repeat split; reflexivity.
Qed.

(** The fields cut out of a byte by the getters fit their widths. *)
Lemma byte_fields_range (b : Z) :
  is_u8 b ->
  0 <= to_u8 (Z.shiftr b 7) <= 1 /\
  0 <= to_u8 (Z.land (Z.shiftr b 4) 0x07) <= 7 /\
  0 <= to_u8 (Z.land (Z.shiftr b 2) 0x03) <= 3 /\
  0 <= to_u8 (Z.land b 0x03) <= 3.
Proof.
  intros Hb.
  assert (H := all_bytes_spec
    (fun b => (0 <=? to_u8 (Z.shiftr b 7)) && (to_u8 (Z.shiftr b 7) <=? 1) &&
              (0 <=? to_u8 (Z.land (Z.shiftr b 4) 0x07)) &&
              (to_u8 (Z.land (Z.shiftr b 4) 0x07) <=? 7) &&
              (0 <=? to_u8 (Z.land (Z.shiftr b 2) 0x03)) &&
              (to_u8 (Z.land (Z.shiftr b 2) 0x03) <=? 3) &&
              (0 <=? to_u8 (Z.land b 0x03)) && (to_u8 (Z.land b 0x03) <=? 3))
    ltac:(vm_compute; reflexivity) b Hb).
  cbv beta in H. rewrite !andb_true_iff in H. lia.
Qed.

(** Packing the four standby fields of a byte gives the byte back. *)
Lemma standby_repack (b : Z) :
  is_u8 b ->
  to_u8 (to_u8 (Z.lor (Z.lor (Z.lor (Z.shiftl (to_u8 (Z.shiftr b 7)) 7)
                                    (Z.shiftl (to_u8 (Z.land (Z.shiftr b 4) 0x07)) 4))
                             (Z.shiftl (to_u8 (Z.land (Z.shiftr b 2) 0x03)) 2))
                      (to_u8 (Z.land b 0x03)))) = b.
Proof.
  intros Hb. apply Z.eqb_eq.
  apply (all_bytes_spec
    (fun b =>
       to_u8 (to_u8 (Z.lor (Z.lor (Z.lor (Z.shiftl (to_u8 (Z.shiftr b 7)) 7)
                                         (Z.shiftl (to_u8 (Z.land (Z.shiftr b 4) 0x07)) 4))
                                  (Z.shiftl (to_u8 (Z.land (Z.shiftr b 2) 0x03)) 2))
                           (to_u8 (Z.land b 0x03)))) =? b));
    [vm_compute; reflexivity | exact Hb].
Qed.

(** Packing the three averaging fields of a byte loses its bit 7. *)
Lemma averaging_repack (b : Z) :
  is_u8 b ->
  to_u8 (to_u8 (Z.lor (Z.lor (Z.shiftl (to_u8 (Z.land (Z.shiftr b 4) 0x07)) 4)
                             (Z.shiftl (to_u8 (Z.land (Z.shiftr b 2) 0x03)) 2))
                      (to_u8 (Z.land b 0x03)))) = Z.land b 0x7F.
Proof.
  intros Hb. apply Z.eqb_eq.
  apply (all_bytes_spec
    (fun b =>
       to_u8 (to_u8 (Z.lor (Z.lor (Z.shiftl (to_u8 (Z.land (Z.shiftr b 4) 0x07)) 4)
                                  (Z.shiftl (to_u8 (Z.land (Z.shiftr b 2) 0x03)) 2))
                           (to_u8 (Z.land b 0x03)))) =? Z.land b 0x7F));
    [vm_compute; reflexivity | exact Hb].
Qed.

Section Further.
Context {R : RegisterMap}.

(** ** What a read delivers *)

(** Whatever the bus does, the byte a register read leaves in its buffer is
    a byte: the register content, the idle line, or what the buffer held. *)
Lemma selectRead_byte (a buf : Z) (s : State) :
  is_u8 buf -> is_u8 (result (selectRead a buf) s).
Proof.
  intros Hbuf. destruct s as [[i ad rp cs] [rf p rd up jk l]].
  destruct i, up; cbn; first [exact Hbuf | apply reg_get_range].
Qed.

Lemma uninitialised_byte (s : State) : is_u8 (result uninitialised s).
Proof. apply to_u8_range. Qed.

(** ** Averaging and sampling configuration *)

(** X1. For samplesPerMeasurement in 0..7, samplingTime in 0..3 and cycleTime
    in 0..3, on a working transport, [getAveragingAndSamplingConfig] run
    after [setAveragingAndSamplingConfig] yields exactly those values. *)
Theorem averaging_round_trip (samplesPerMeasurement samplingTime cycleTime : Z) (s : State) :
  0 <= samplesPerMeasurement <= 7 ->
  0 <= samplingTime <= 3 ->
  0 <= cycleTime <= 3 ->
  transport_up s ->
  result getAveragingAndSamplingConfig
    (after (setAveragingAndSamplingConfig samplesPerMeasurement samplingTime cycleTime) s)
  = (true, (samplesPerMeasurement, samplingTime, cycleTime)).
Proof.
  intros Hspm Hst Hct Hup.
  unfold setAveragingAndSamplingConfig, getAveragingAndSamplingConfig.
  rewrite after_bind, !result_bind, after_uninitialised.
  change (after (ret true)) with (fun s' : State => s'). cbv beta.
  rewrite selectWrite_after by exact Hup.
  rewrite selectRead_result
    by (destruct s as [d w]; by apply transport_up_after_write).
  cbn [hw regs world_after_write]. rewrite reg_get_set_same.
  destruct (averaging_fields _ _ _ Hspm Hst Hct) as (-> & -> & ->).
  reflexivity.
Qed.

(** X2. In every state, bus up or down, the fields the two configuration
    getters hand out fit their widths: averageSum in 0..1,
    samplesPerMeasurement in 0..7, samplingTime and cycleTime in 0..3; and
    both report true. *)
Theorem decoded_fields_in_range (s : State) :
  (exists a spm st ct,
     result getStandbyConfiguration s = (true, (a, spm, st, ct)) /\
     0 <= a <= 1 /\ 0 <= spm <= 7 /\ 0 <= st <= 3 /\ 0 <= ct <= 3) /\
  (exists spm st ct,
     result getAveragingAndSamplingConfig s = (true, (spm, st, ct)) /\
     0 <= spm <= 7 /\ 0 <= st <= 3 /\ 0 <= ct <= 3).
Proof.
  split.
  - unfold getStandbyConfiguration. rewrite !result_bind, after_uninitialised.
    set (reg := result (selectRead _ _) s).
    assert (Hreg : is_u8 reg) by (apply selectRead_byte, uninitialised_byte).
    destruct (byte_fields_range reg Hreg) as (Ha & Hspm & Hst & Hct).
    do 4 eexists. split; [reflexivity | auto].
  - unfold getAveragingAndSamplingConfig. rewrite !result_bind, after_uninitialised.
    set (reg := result (selectRead _ _) s).
    assert (Hreg : is_u8 reg) by (apply selectRead_byte, uninitialised_byte).
    destruct (byte_fields_range reg Hreg) as (_ & Hspm & Hst & Hct).
    do 3 eexists. split; [reflexivity | auto].
Qed.

(** X3. Reading the standby configuration and writing the four values back
    leaves the register's byte as it was: the four fields cover all eight
    bits. *)
Theorem standby_write_back (a spm st ct : Z) (s : State) :
  transport_up s ->
  result getStandbyConfiguration s = (true, (a, spm, st, ct)) ->
  reg_get (regs (hw (after (setStandbyConfiguration a spm st ct)
                           (after getStandbyConfiguration s))))
          CAP1188_STANDBY_CONFIGURATION_REG
  = reg_get (regs (hw s)) CAP1188_STANDBY_CONFIGURATION_REG.
Proof.
  intros Hup Hres.
  assert (Hafter : after getStandbyConfiguration s =
            mkState (dev s)
              (world_after_read (dev s) CAP1188_STANDBY_CONFIGURATION_REG (hw s))).
  { unfold getStandbyConfiguration.
    rewrite !after_bind, after_uninitialised, selectRead_after by exact Hup.
    reflexivity. }
  unfold getStandbyConfiguration in Hres.
  rewrite !result_bind, after_uninitialised, selectRead_result in Hres by exact Hup.
  injection Hres as <- <- <- <-.
  rewrite Hafter. unfold setStandbyConfiguration. rewrite after_bind.
  change (after (ret true)) with (fun s' : State => s'). cbv beta.
  rewrite selectWrite_after by (apply transport_up_after_read; exact Hup).
  cbn [hw regs dev world_after_write world_after_read].
  rewrite reg_get_set_same. apply standby_repack, reg_get_range.
Qed.

(** X4. Reading the averaging and sampling configuration and writing the
    three values back clears bit 7 of the register and keeps bits 6..0: the
    three fields cover bits 6..0 only. *)
Theorem averaging_write_back (spm st ct : Z) (s : State) :
  transport_up s ->
  result getAveragingAndSamplingConfig s = (true, (spm, st, ct)) ->
  reg_get (regs (hw (after (setAveragingAndSamplingConfig spm st ct)
                           (after getAveragingAndSamplingConfig s))))
          CAP1188_AVERAGING_AND_SAMPLING_CONFIG_REG
  = Z.land (reg_get (regs (hw s)) CAP1188_AVERAGING_AND_SAMPLING_CONFIG_REG) 0x7F.
Proof.
  intros Hup Hres.
  assert (Hafter : after getAveragingAndSamplingConfig s =
            mkState (dev s)
              (world_after_read (dev s) CAP1188_AVERAGING_AND_SAMPLING_CONFIG_REG (hw s))).
  { unfold getAveragingAndSamplingConfig.
    rewrite !after_bind, after_uninitialised, selectRead_after by exact Hup.
    reflexivity. }
  unfold getAveragingAndSamplingConfig in Hres.
  rewrite !result_bind, after_uninitialised, selectRead_result in Hres by exact Hup.
  injection Hres as <- <- <-.
  rewrite Hafter. unfold setAveragingAndSamplingConfig. rewrite after_bind.
  change (after (ret true)) with (fun s' : State => s'). cbv beta.
  rewrite selectWrite_after by (apply transport_up_after_read; exact Hup).
  cbn [hw regs dev world_after_write world_after_read].
  rewrite reg_get_set_same. apply averaging_repack, reg_get_range.
Qed.

(** ** The SPI engine as a register file *)

(** X5. Whatever transport the handle was initialised with, the public
    [readRegisterFromAddress] run after [writeRegisterAtAddress a d] returns
    [d] at [a] and the former content at any other address. *)
Theorem spi_write_then_read (a b d : Z) (s : State) :
  is_u8 d ->
  result (readRegisterFromAddress a) (after (writeRegisterAtAddress a d) s) = d /\
  (b <> a ->
   result (readRegisterFromAddress b) (after (writeRegisterAtAddress a d) s)
   = reg_get (regs (hw s)) b).
Proof.
  intros Hd. run_spi. split.
  - rewrite reg_get_set_same. by apply to_u8_id.
  - intros Hba. apply reg_get_set_other. congruence.
Qed.

End Further.

(** ** Properties of the appended events *)

Section Appends.
Variable P : CAP1188 -> list Event -> Prop.
Hypothesis P_nil : forall d, P d [].
Hypothesis P_app : forall d e1 e2, P d e1 -> P d e2 -> P d (e1 ++ e2).

Lemma appends_quiet {A : Type} (m : M A) :
  (forall s, after m s = s) -> appends P m.
Proof.
  intros Hm s. rewrite Hm. split; [reflexivity |].
  exists []. rewrite app_nil_r. auto.
Qed.

Lemma appends_ret {A : Type} (a : A) : appends P (ret a).
Proof. by apply appends_quiet. Qed.

Lemma appends_bind {A B : Type} (m : M A) (k : A -> M B) :
  appends P m -> (forall a, appends P (k a)) -> appends P (bind m k).
Proof.
  intros Hm Hk s. rewrite after_bind.
  destruct (Hm s) as (Hdev1 & evs1 & Hlog1 & HP1).
  destruct (Hk (result m s) (after m s)) as (Hdev2 & evs2 & Hlog2 & HP2).
  split; [congruence |].
  exists (evs1 ++ evs2). split.
  - rewrite Hlog2, Hlog1. by rewrite app_assoc.
  - apply P_app; [exact HP1 | rewrite <- Hdev1; exact HP2].
Qed.

Lemma appends_if {A : Type} (b : bool) (m1 m2 : M A) :
  appends P m1 -> appends P m2 -> appends P (if b then m1 else m2).
Proof. by destruct b. Qed.

End Appends.

Lemma keeps_regs_ret {A : Type} (a : A) : keeps_regs (ret a).
Proof. intros s. reflexivity. Qed.

Lemma keeps_regs_bind {A B : Type} (m : M A) (k : A -> M B) :
  keeps_regs m -> (forall a, keeps_regs (k a)) -> keeps_regs (bind m k).
Proof. intros Hm Hk s. rewrite after_bind, Hk. apply Hm. Qed.

Lemma no_writes_nil (d : CAP1188) : no_writes d [].
Proof. reflexivity. Qed.

Lemma no_writes_app (d : CAP1188) (e1 e2 : list Event) :
  no_writes d e1 -> no_writes d e2 -> no_writes d (e1 ++ e2).
Proof. unfold no_writes. intros H1 H2. by rewrite forallb_app, H1, H2. Qed.

Lemma on_transport_nil (d : CAP1188) : on_transport d [].
Proof. reflexivity. Qed.

Lemma on_transport_app (d : CAP1188) (e1 e2 : list Event) :
  on_transport d e1 -> on_transport d e2 -> on_transport d (e1 ++ e2).
Proof. unfold on_transport. intros H1 H2. by rewrite forallb_app, H1, H2. Qed.

Lemma cs_scan_app (cs : Z) (low : bool) (e1 e2 : list Event) :
  cs_scan cs low (e1 ++ e2) =
  match cs_scan cs low e1 with
  | Some low' => cs_scan cs low' e2
  | None => None
  end.
Proof.
  revert low. induction e1 as [| e rest IH]; intros low; [reflexivity |].
  destruct e as [pin mode | pin level | ms | sent captured | da ra dl | da ra dt ok];
    cbn [cs_scan app]; try apply IH.
  - destruct (pin =? cs); [| apply IH].
    destruct level, low; first [apply IH | reflexivity].
  - destruct low; [apply IH | reflexivity].
Qed.

Lemma framed_nil (d : CAP1188) : framed d [].
Proof. reflexivity. Qed.

Lemma framed_app (d : CAP1188) (e1 e2 : list Event) :
  framed d e1 -> framed d e2 -> framed d (e1 ++ e2).
Proof. unfold framed. intros H1 H2. by rewrite cs_scan_app, H1. Qed.

Create HintDb evprops discriminated.

Ltac appends_by Hnil Happ :=
  repeat first
    [ solve [auto with evprops]
    | apply (appends_ret _ Hnil)
    | apply (appends_quiet _ Hnil); solve [reflexivity]
    | apply appends_if
    | apply (appends_bind _ Happ); [| intros ?] ].

(** The public methods are built from [selectRead], [selectWrite] and
    uninitialised locals alone: a property of appended events that holds of
    those two holds of every method that selects its transport. *)
Section AppendsOps.
Context {R : RegisterMap}.
Variable P : CAP1188 -> list Event -> Prop.
Hypothesis P_nil : forall d, P d [].
Hypothesis P_app : forall d e1 e2, P d e1 -> P d e2 -> P d (e1 ++ e2).
Hypothesis P_read : forall a buf, appends P (selectRead a buf).

#[local] Hint Resolve P_read : evprops.

Lemma appends_getProductId : appends P getProductId.
Proof. unfold getProductId. appends_by P_nil P_app. Qed.

Lemma appends_getManufacturerId : appends P getManufacturerId.
Proof. unfold getManufacturerId. appends_by P_nil P_app. Qed.

Lemma appends_getRevision : appends P getRevision.
Proof. unfold getRevision. appends_by P_nil P_app. Qed.

Lemma appends_getStandbyConfiguration : appends P getStandbyConfiguration.
Proof. unfold getStandbyConfiguration. appends_by P_nil P_app. Qed.

Lemma appends_getAveragingAndSamplingConfig : appends P getAveragingAndSamplingConfig.
Proof. unfold getAveragingAndSamplingConfig. appends_by P_nil P_app. Qed.

Lemma appends_getSensorInputThreshold (c : Z) : appends P (getSensorInputThreshold c).
Proof.
  unfold getSensorInputThreshold.
  apply (appends_bind _ P_app); [appends_by P_nil P_app | intros reg].
  destruct c as [|p|p]; [appends_by P_nil P_app | | appends_by P_nil P_app].
  do 4 (try destruct p as [p|p|]); appends_by P_nil P_app.
Qed.

Hypothesis P_write : forall a v, appends P (selectWrite a v).

#[local] Hint Resolve P_write : evprops.

Lemma appends_getSensorInputs : appends P getSensorInputs.
Proof. unfold getSensorInputs. appends_by P_nil P_app. Qed.

Lemma appends_setMultipleTouchConfiguration (e : bool) (n : Z) :
  appends P (setMultipleTouchConfiguration e n).
Proof.
  unfold setMultipleTouchConfiguration.
  destruct e; [destruct n as [|p|p]; [| do 3 (try destruct p as [p|p|]) |] |];
    cbn; appends_by P_nil P_app.
Qed.

Lemma appends_setSensorInputLEDLinking (v : Z) : appends P (setSensorInputLEDLinking v).
Proof. unfold setSensorInputLEDLinking. appends_by P_nil P_app. Qed.

Lemma appends_setStandbyConfiguration (a b c d : Z) :
  appends P (setStandbyConfiguration a b c d).
Proof. unfold setStandbyConfiguration. appends_by P_nil P_app. Qed.

Lemma appends_setAveragingAndSamplingConfig (a b c : Z) :
  appends P (setAveragingAndSamplingConfig a b c).
Proof. unfold setAveragingAndSamplingConfig. appends_by P_nil P_app. Qed.

Lemma appends_setSensorInputThreshold (c v : Z) : appends P (setSensorInputThreshold c v).
Proof.
  unfold setSensorInputThreshold.
  destruct c as [|p|p]; [appends_by P_nil P_app | | appends_by P_nil P_app].
  do 4 (try destruct p as [p|p|]); appends_by P_nil P_app.
Qed.

Lemma appends_setSensorInputThresholdAll (v : Z) : appends P (setSensorInputThresholdAll v).
Proof. unfold setSensorInputThresholdAll. appends_by P_nil P_app. Qed.

Lemma appends_drop {A : Type} (m : M A) : appends P m -> appends P (drop m).
Proof.
  intros Hm. unfold drop. apply (appends_bind _ P_app); [exact Hm | intros _].
  apply (appends_ret _ P_nil).
Qed.

Lemma appends_perform (o : Operation) :
  selects_transport o = true -> appends P (perform o).
Proof.
  destruct o; cbn [selects_transport perform]; intros Hsel; try discriminate Hsel;
    apply appends_drop.
  - apply appends_getProductId.
  - apply appends_getManufacturerId.
  - apply appends_getRevision.
  - apply appends_getSensorInputs.
  - apply appends_setMultipleTouchConfiguration.
  - apply appends_setSensorInputLEDLinking.
  - apply appends_setStandbyConfiguration.
  - apply appends_getStandbyConfiguration.
  - apply appends_setAveragingAndSamplingConfig.
  - apply appends_getAveragingAndSamplingConfig.
  - apply appends_setSensorInputThreshold.
  - apply appends_setSensorInputThresholdAll.
  - apply appends_getSensorInputThreshold.
Qed.

End AppendsOps.

Ltac by_running :=
  let s := fresh "s" in
  intros s; destruct s as [[[|] ? ? ?] [? ? ? [|] ? ?]];
  (split; [reflexivity |]); eexists;
  (split;
   [ cbn; rewrite <- ?app_assoc; reflexivity
   | try reflexivity ]).

Ltac regs_by :=
  repeat first
    [ solve [auto with evprops]
    | apply keeps_regs_ret
    | apply keeps_regs_bind; [| intros ?] ].

Section EventProperties.
Context {R : RegisterMap}.

(** ** Getters never write *)

Lemma selectRead_no_writes (a buf : Z) : appends no_writes (selectRead a buf).
Proof. by_running. Qed.

Lemma selectRead_keeps_regs (a buf : Z) : keeps_regs (selectRead a buf).
Proof. intros [[[|] ? ? ?] [? ? ? [|] ? ?]]; reflexivity. Qed.

Lemma uninitialised_keeps_regs : keeps_regs uninitialised.
Proof. intros s. reflexivity. Qed.

#[local] Hint Resolve selectRead_keeps_regs uninitialised_keeps_regs : evprops.

(** X6. The identity, configuration and threshold getters change no register
    and issue no write command on either transport, in every state (bus up
    or down, channel number valid or not), and keep the handle's fields. *)
Theorem getters_read_only :
  read_only getProductId /\
  read_only getManufacturerId /\
  read_only getRevision /\
  read_only getStandbyConfiguration /\
  read_only getAveragingAndSamplingConfig /\
  (forall c, read_only (getSensorInputThreshold c)).
Proof.
  assert (Hthr : forall c, read_only (getSensorInputThreshold c)).
  { intros c. split.
    - unfold getSensorInputThreshold.
      apply keeps_regs_bind; [regs_by | intros reg].
      destruct c as [|p|p]; [regs_by | | regs_by].
      do 4 (try destruct p as [p|p|]); regs_by.
    - apply (appends_getSensorInputThreshold _ no_writes_nil no_writes_app
               selectRead_no_writes). }
  repeat apply conj; try exact Hthr.
  - unfold getProductId. regs_by.
  - apply (appends_getProductId _ no_writes_nil no_writes_app selectRead_no_writes).
  - unfold getManufacturerId. regs_by.
  - apply (appends_getManufacturerId _ no_writes_nil no_writes_app selectRead_no_writes).
  - unfold getRevision. regs_by.
  - apply (appends_getRevision _ no_writes_nil no_writes_app selectRead_no_writes).
  - unfold getStandbyConfiguration. regs_by.
  - apply (appends_getStandbyConfiguration _ no_writes_nil no_writes_app
             selectRead_no_writes).
  - unfold getAveragingAndSamplingConfig. regs_by.
  - apply (appends_getAveragingAndSamplingConfig _ no_writes_nil no_writes_app
             selectRead_no_writes).
Qed.

(** X7. On a working transport each identity query returns the content of its
    register after exactly one register read. *)
Theorem identity_queries (s : State) :
  transport_up s ->
  (result getProductId s = reg_get (regs (hw s)) CAP1188_PRODUCT_ID_REG /\
   log (hw (after getProductId s)) =
     log (hw s) ++ read_events (dev s) CAP1188_PRODUCT_ID_REG (result getProductId s)) /\
  (result getManufacturerId s = reg_get (regs (hw s)) CAP1188_MANUFACTURER_ID_REG /\
   log (hw (after getManufacturerId s)) =
     log (hw s) ++
     read_events (dev s) CAP1188_MANUFACTURER_ID_REG (result getManufacturerId s)) /\
  (result getRevision s = reg_get (regs (hw s)) CAP1188_REVISION_REG /\
   log (hw (after getRevision s)) =
     log (hw s) ++ read_events (dev s) CAP1188_REVISION_REG (result getRevision s)).
Proof.
  intros Hup. unfold getProductId, getManufacturerId, getRevision.
  rewrite !result_bind, !after_bind, after_uninitialised.
  rewrite !selectRead_result, !selectRead_after by exact Hup.
  repeat split.
Qed.

(** ** Chip-select discipline *)

Lemma resetSPI_framed : appends framed resetSPI.
Proof. by_running; unfold framed; cbn; rewrite !Z.eqb_refl; reflexivity. Qed.

Lemma setRegisterAddress_framed (a : Z) : appends framed (setRegisterAddress a).
Proof. by_running; unfold framed; cbn; rewrite !Z.eqb_refl; reflexivity. Qed.

Lemma readRegister_framed : appends framed readRegister.
Proof. by_running; unfold framed; cbn; rewrite !Z.eqb_refl; reflexivity. Qed.

Lemma writeRegister_framed (d : Z) : appends framed (writeRegister d).
Proof. by_running; unfold framed; cbn; rewrite !Z.eqb_refl; reflexivity. Qed.

#[local] Hint Resolve resetSPI_framed setRegisterAddress_framed readRegister_framed
  writeRegister_framed : evprops.

Lemma readRegisterFromAddress_framed (a : Z) : appends framed (readRegisterFromAddress a).
Proof. unfold readRegisterFromAddress. appends_by framed_nil framed_app. Qed.

Lemma writeRegisterAtAddress_framed (a d : Z) : appends framed (writeRegisterAtAddress a d).
Proof. unfold writeRegisterAtAddress. appends_by framed_nil framed_app. Qed.

Lemma I2Cdev_readByte_framed (da ra buf : Z) : appends framed (I2Cdev_readByte da ra buf).
Proof. by_running. Qed.

Lemma I2Cdev_writeByte_framed (da ra d : Z) : appends framed (I2Cdev_writeByte da ra d).
Proof. by_running. Qed.

#[local] Hint Resolve readRegisterFromAddress_framed writeRegisterAtAddress_framed
  I2Cdev_readByte_framed I2Cdev_writeByte_framed : evprops.

Lemma selectRead_framed (a buf : Z) : appends framed (selectRead a buf).
Proof. unfold selectRead. appends_by framed_nil framed_app. Qed.

Lemma selectWrite_framed (a v : Z) : appends framed (selectWrite a v).
Proof. unfold selectWrite. appends_by framed_nil framed_app. Qed.

Lemma perform_framed (o : Operation) : appends framed (perform o).
Proof.
  destruct (selects_transport o) eqn:Hsel.
  - apply (appends_perform _ framed_nil framed_app selectRead_framed selectWrite_framed).
    exact Hsel.
  - destruct o; try discriminate Hsel; cbn [perform];
      apply (appends_drop _ framed_nil framed_app); auto with evprops.
Qed.

Lemma perform_all_framed (ops : list Operation) : appends framed (perform_all ops).
Proof.
  induction ops as [| o rest IH]; cbn [perform_all].
  - apply (appends_ret _ framed_nil).
  - apply (appends_bind _ framed_app); [apply perform_framed | intros _; exact IH].
Qed.

(** X8. Along any sequence of operations other than initialisation, on either
    transport, the events appended to the log keep the chip-select
    discipline on the handle's pin: every SPI transfer happens while chip
    select is low, low and high alternate, and chip select is high again at
    the end. *)
Theorem chip_select_discipline (ops : list Operation) (s : State) :
  exists evs,
    log (hw (after (perform_all ops) s)) = log (hw s) ++ evs /\
    cs_scan (to_u8 (_csPin (dev s))) false evs = Some false.
Proof.
  destruct (perform_all_framed ops s) as (_ & evs & Hlog & Hscan).
  exists evs. split; [exact Hlog | exact Hscan].
Qed.

(** ** The inactive transport is never used *)

Lemma selectRead_on_transport (a buf : Z) : appends on_transport (selectRead a buf).
Proof. by_running. Qed.

Lemma selectWrite_on_transport (a v : Z) : appends on_transport (selectWrite a v).
Proof. by_running. Qed.

Lemma perform_all_on_transport (ops : list Operation) :
  forallb selects_transport ops = true -> appends on_transport (perform_all ops).
Proof.
  induction ops as [| o rest IH]; cbn [perform_all forallb]; intros Hsel.
  - apply (appends_ret _ on_transport_nil).
  - apply andb_true_iff in Hsel. destruct Hsel as [Ho Hrest].
    apply (appends_bind _ on_transport_app); [| intros _; by apply IH].
    by apply (appends_perform _ on_transport_nil on_transport_app
                selectRead_on_transport selectWrite_on_transport).
Qed.

(** X9. Along any sequence of the methods that select their transport (all but
    the SPI engine's own six), a handle on I2C causes I2C transfers only (no
    pin is driven, nothing is shifted over SPI) and a handle on SPI causes no
    I2C transfer. *)
Theorem transport_exclusive (ops : list Operation) (s : State) :
  forallb selects_transport ops = true ->
  exists evs,
    log (hw (after (perform_all ops) s)) = log (hw s) ++ evs /\
    forallb (fun e => Bool.eqb (uses_i2c e) (_i2c (dev s))) evs = true.
Proof.
  intros Hsel.
  destruct (perform_all_on_transport ops Hsel s) as (_ & evs & Hlog & Hon).
  exists evs. split; [exact Hlog | exact Hon].
Qed.

End EventProperties.

(** ** The same answers on both transports *)

Lemma related_ret {A : Type} (a : A) : related eq (ret a) (ret a).
Proof. intros s1 s2 Hsame. split; [reflexivity | exact Hsame]. Qed.

Lemma related_bind {A B : Type} (Q : A -> A -> Prop) (Q' : B -> B -> Prop)
    (m1 m2 : M A) (k1 k2 : A -> M B) :
  related Q m1 m2 ->
  (forall a1 a2, Q a1 a2 -> related Q' (k1 a1) (k2 a2)) ->
  related Q' (bind m1 k1) (bind m2 k2).
Proof.
  intros Hm Hk s1 s2 Hsame. rewrite !result_bind, !after_bind.
  destruct (Hm s1 s2 Hsame) as [Hres Hsame'].
  exact (Hk _ _ Hres _ _ Hsame').
Qed.

Lemma related_if {A : Type} (Q : A -> A -> Prop) (b : bool) (m1 m2 n1 n2 : M A) :
  related Q m1 m2 -> related Q n1 n2 ->
  related Q (if b then m1 else n1) (if b then m2 else n2).
Proof. by destruct b. Qed.

(** Uninitialised locals may differ from one run to the other. *)
Lemma related_uninitialised : related (fun _ _ => True) uninitialised uninitialised.
Proof. intros s1 s2 Hsame. split; [exact I | exact Hsame]. Qed.

Section Agnostic.
Context {R : RegisterMap}.

Lemma related_selectRead (a buf1 buf2 : Z) :
  related eq (selectRead a buf1) (selectRead a buf2).
Proof.
  intros s1 s2 (Hregs & Hup1 & Hup2).
  rewrite !selectRead_result, !selectRead_after by assumption.
  split; [by rewrite Hregs |].
  destruct s1 as [d1 w1], s2 as [d2 w2].
  repeat split; [exact Hregs | by apply transport_up_after_read ..].
Qed.

Lemma related_selectWrite (a v : Z) :
  related eq (selectWrite a v) (selectWrite a v).
Proof.
  intros s1 s2 (Hregs & Hup1 & Hup2).
  rewrite !selectWrite_after by assumption.
  split; [by destruct (result _ s1), (result _ s2) |].
  destruct s1 as [d1 w1], s2 as [d2 w2]. cbn [dev hw] in *.
  repeat split; [cbn; by rewrite Hregs | by apply transport_up_after_write ..].
Qed.

#[local] Hint Resolve related_selectRead related_selectWrite : evprops.

Ltac related_by :=
  repeat first
    [ solve [auto with evprops]
    | apply related_ret
    | apply related_if
    | apply (related_bind (fun _ _ => True));
        [solve [apply related_uninitialised] | intros ? ? _]
    | apply (related_bind eq); [| intros ? ? <-] ].

Lemma related_getProductId : related eq getProductId getProductId.
Proof. unfold getProductId. related_by. Qed.

Lemma related_getManufacturerId : related eq getManufacturerId getManufacturerId.
Proof. unfold getManufacturerId. related_by. Qed.

Lemma related_getRevision : related eq getRevision getRevision.
Proof. unfold getRevision. related_by. Qed.

Lemma related_getSensorInputs : related eq getSensorInputs getSensorInputs.
Proof. unfold getSensorInputs. related_by. Qed.

Lemma related_getStandbyConfiguration :
  related eq getStandbyConfiguration getStandbyConfiguration.
Proof. unfold getStandbyConfiguration. related_by. Qed.

Lemma related_getAveragingAndSamplingConfig :
  related eq getAveragingAndSamplingConfig getAveragingAndSamplingConfig.
Proof. unfold getAveragingAndSamplingConfig. related_by. Qed.

Lemma related_getSensorInputThreshold (c : Z) :
  related eq (getSensorInputThreshold c) (getSensorInputThreshold c).
Proof.
  unfold getSensorInputThreshold.
  apply (related_bind (fun _ _ => True)); [apply related_uninitialised | intros b1 b2 _].
  destruct c as [|p|p]; [related_by | | related_by].
  do 4 (try destruct p as [p|p|]); related_by.
Qed.

Lemma related_setMultipleTouchConfiguration (e : bool) (n : Z) :
  related eq (setMultipleTouchConfiguration e n) (setMultipleTouchConfiguration e n).
Proof.
  unfold setMultipleTouchConfiguration.
  destruct e; [destruct n as [|p|p]; [| do 3 (try destruct p as [p|p|]) |] |];
    cbn; related_by.
Qed.

Lemma related_setSensorInputThreshold (c v : Z) :
  related eq (setSensorInputThreshold c v) (setSensorInputThreshold c v).
Proof.
  unfold setSensorInputThreshold.
  destruct c as [|p|p]; [related_by | | related_by].
  do 4 (try destruct p as [p|p|]); related_by.
Qed.

Lemma related_setSensorInputThresholdAll (v : Z) :
  related eq (setSensorInputThresholdAll v) (setSensorInputThresholdAll v).
Proof. unfold setSensorInputThresholdAll. related_by. Qed.

#[local] Hint Resolve related_getProductId related_getManufacturerId
  related_getRevision related_getSensorInputs related_getStandbyConfiguration
  related_getAveragingAndSamplingConfig related_getSensorInputThreshold
  related_setMultipleTouchConfiguration related_setSensorInputThreshold
  related_setSensorInputThresholdAll : evprops.

Lemma related_perform (o : Operation) :
  selects_transport o = true -> related eq (perform o) (perform o).
Proof.
  destruct o; cbn [selects_transport perform]; intros Hsel; try discriminate Hsel;
    unfold drop, setSensorInputLEDLinking, setStandbyConfiguration,
      setAveragingAndSamplingConfig; related_by.
Qed.

Lemma related_perform_all (ops : list Operation) :
  forallb selects_transport ops = true ->
  related eq (perform_all ops) (perform_all ops).
Proof.
  induction ops as [| o rest IH]; cbn [perform_all forallb]; intros Hsel.
  - apply related_ret.
  - apply andb_true_iff in Hsel. destruct Hsel as [Ho Hrest].
    apply (related_bind eq); [by apply related_perform | intros _ _ _; by apply IH].
Qed.

(** X10. A handle on I2C and a handle on SPI (or any two handles) facing the same
    register file over working transports get the same answer from every
    getter, whatever their uninitialised locals hold, and any sequence of the
    transport-selecting methods leaves the two register files equal. *)
Theorem transport_agnostic (s1 s2 : State) :
  same_chip s1 s2 ->
  result getProductId s1 = result getProductId s2 /\
  result getManufacturerId s1 = result getManufacturerId s2 /\
  result getRevision s1 = result getRevision s2 /\
  result getSensorInputs s1 = result getSensorInputs s2 /\
  result getStandbyConfiguration s1 = result getStandbyConfiguration s2 /\
  result getAveragingAndSamplingConfig s1 = result getAveragingAndSamplingConfig s2 /\
  (forall c, result (getSensorInputThreshold c) s1 = result (getSensorInputThreshold c) s2) /\
  (forall ops,
     forallb selects_transport ops = true ->
     regs (hw (after (perform_all ops) s1)) = regs (hw (after (perform_all ops) s2))).
Proof.
  intros Hsame.
  repeat apply conj.
  - apply (related_getProductId s1 s2 Hsame).
  - apply (related_getManufacturerId s1 s2 Hsame).
  - apply (related_getRevision s1 s2 Hsame).
  - apply (related_getSensorInputs s1 s2 Hsame).
  - apply (related_getStandbyConfiguration s1 s2 Hsame).
  - apply (related_getAveragingAndSamplingConfig s1 s2 Hsame).
  - intros c. apply (related_getSensorInputThreshold c s1 s2 Hsame).
  - intros ops Hsel.
    destruct (related_perform_all ops Hsel s1 s2 Hsame) as (_ & Hregs & _).
    exact Hregs.
Qed.

End Agnostic.

(** ** Writing all thresholds at once *)

Lemma low7_byte (r : Z) : is_u8 r -> to_u8 (Z.land r 0x7F) = Z.land r 0x7F.
Proof.
  intros Hr. apply Z.eqb_eq.
  apply (all_bytes_spec (fun r => to_u8 (Z.land r 0x7F) =? Z.land r 0x7F));
    [vm_compute; reflexivity | exact Hr].
Qed.

Lemma low7_then_bit7 (r : Z) :
  is_u8 r -> to_u8 (Z.lor (Z.land r 0x7F) 0x80) = Z.lor r 0x80.
Proof.
  intros Hr. apply Z.eqb_eq.
  apply (all_bytes_spec (fun r => to_u8 (Z.lor (Z.land r 0x7F) 0x80) =? Z.lor r 0x80));
    [vm_compute; reflexivity | exact Hr].
Qed.

Lemma bit7_byte (r : Z) : is_u8 r -> is_u8 (Z.lor r 0x80).
Proof.
  intros Hr.
  assert (H := all_bytes_spec
    (fun r => (0 <=? Z.lor r 0x80) && (Z.lor r 0x80 <? 256))
    ltac:(vm_compute; reflexivity) r Hr).
  cbv beta in H. apply andb_true_iff in H. unfold is_u8. lia.
Qed.

Ltac still_up Hup :=
  repeat first
    [ exact Hup | apply transport_up_after_read | apply transport_up_after_write ].

Section ThresholdAll.
Context {R : RegisterMap}.

(** X11. On a working transport, with the recalibration configuration register
    at another address than channel 1's threshold register,
    [setSensorInputThresholdAll] makes five register accesses (read, write,
    write, read, write) and no other; it writes the threshold to channel 1's
    register only, leaves the recalibration configuration register with bit 7
    set whatever it held before (its other bits unchanged), changes no other
    register, and returns false. *)
Theorem setSensorInputThresholdAll_effect (threshold : Z) (s : State) :
  transport_up s ->
  is_u8 threshold ->
  CAPP1188_RECALIBRATION_CONFIGURATION_REG <> CAP1188_SENSOR_INPUT_1_THRESHOLD_REG ->
  let recal := CAPP1188_RECALIBRATION_CONFIGURATION_REG in
  let first := CAP1188_SENSOR_INPUT_1_THRESHOLD_REG in
  let r := reg_get (regs (hw s)) recal in
  let s' := after (setSensorInputThresholdAll threshold) s in
  result (setSensorInputThresholdAll threshold) s = false /\
  log (hw s') =
    log (hw s) ++
    read_events (dev s) recal r ++
    write_events (dev s) true recal (Z.land r 0x7F) ++
    write_events (dev s) true first threshold ++
    read_events (dev s) recal (Z.land r 0x7F) ++
    write_events (dev s) true recal (Z.lor r 0x80) /\
  reg_get (regs (hw s')) first = threshold /\
  reg_get (regs (hw s')) recal = Z.lor r 0x80 /\
  (forall a, a <> first -> a <> recal -> reg_get (regs (hw s')) a = reg_get (regs (hw s)) a).
Proof.
  intros Hup Hth Hne recal first r s'.
  assert (Hr : is_u8 r) by apply reg_get_range.
  destruct s as [d w].
  assert (Hs' : s' =
    mkState d
      (world_after_write d recal (Z.lor r 0x80)
         (world_after_read d recal
            (world_after_write d first threshold
               (world_after_write d recal (Z.land r 0x7F)
                  (world_after_read d recal w)))))).
  { subst s'. unfold setSensorInputThresholdAll.
    rewrite !after_bind, after_uninitialised.
    rewrite (selectRead_result _ _ (mkState _ _)), (selectRead_after _ _ (mkState _ _))
      by exact Hup.
    cbn [dev hw]. fold recal first.
    change (reg_get (regs w) recal) with r. rewrite (low7_byte r Hr).
    rewrite (selectWrite_after _ _ (mkState _ _)) by still_up Hup. cbn [dev hw].
    rewrite (selectWrite_after _ _ (mkState _ _)) by still_up Hup. cbn [dev hw].
    rewrite (selectRead_result _ _ (mkState _ _)), (selectRead_after _ _ (mkState _ _))
      by still_up Hup.
    cbn [dev hw regs world_after_write world_after_read].
    rewrite (reg_get_set_other _ first recal) by (subst first recal; congruence).
    rewrite reg_get_set_same, (low7_byte r Hr), (low7_then_bit7 r Hr).
    rewrite (selectWrite_after _ _ (mkState _ _)) by still_up Hup.
    reflexivity. }
  rewrite Hs'. cbn [hw dev regs log world_after_write world_after_read].
  split; [reflexivity |]. split; [| split; [| split]].
  - rewrite (reg_get_set_other _ first recal) by (subst first recal; congruence).
    rewrite reg_get_set_same, (low7_byte r Hr).
    change (reg_get (regs w) recal) with r.
    by rewrite <- !app_assoc.
  - rewrite reg_get_set_other by (subst first recal; congruence).
    rewrite reg_get_set_same. by apply to_u8_id.
  - rewrite reg_get_set_same. apply to_u8_id, bit7_byte, Hr.
  - intros a Ha1 Har.
    rewrite reg_get_set_other by congruence.
    rewrite reg_get_set_other by congruence.
    rewrite reg_get_set_other by congruence.
    reflexivity.
Qed.

End ThresholdAll.

(** ** Thresholds of different channels *)

Section Thresholds.
Context {R : RegisterMap}.

Lemma threshold_methods_reg (c v : Z) :
  1 <= c <= 8 ->
  setSensorInputThreshold c v = (selectWrite (threshold_reg c) v ;; ret true) /\
  getSensorInputThreshold c = (buf <- uninitialised ;; selectRead (threshold_reg c) buf).
Proof.
  intros Hc.
  assert (Hcases : c = 1 \/ c = 2 \/ c = 3 \/ c = 4 \/ c = 5 \/ c = 6 \/ c = 7 \/ c = 8) by lia.
  destruct Hcases as [-> | [-> | [-> | [-> | [-> | [-> | [-> | ->]]]]]]];
    split; reflexivity.
Qed.

(** X12. On a working transport, writing the threshold of a valid channel
    changes no register but that channel's; so, when two valid channels have
    their threshold registers at different addresses, a threshold written to
    the first is still read back after a write to the second. *)
Theorem threshold_channels_independent (c1 c2 v1 v2 : Z) (s : State) :
  transport_up s ->
  1 <= c1 <= 8 ->
  1 <= c2 <= 8 ->
  is_u8 v1 ->
  threshold_reg c1 <> threshold_reg c2 ->
  (forall a,
     a <> threshold_reg c2 ->
     reg_get (regs (hw (after (setSensorInputThreshold c2 v2) s))) a
     = reg_get (regs (hw s)) a) /\
  result (getSensorInputThreshold c1)
    (after (setSensorInputThreshold c2 v2) (after (setSensorInputThreshold c1 v1) s))
  = v1.
Proof.
  intros Hup Hc1 Hc2 Hv1 Hne.
  destruct (threshold_methods_reg c1 v1 Hc1) as [Hset1 Hget1].
  destruct (threshold_methods_reg c2 v2 Hc2) as [Hset2 _].
  rewrite Hset1, Hset2, Hget1. clear Hset1 Hset2 Hget1.
  destruct s as [d w].
  rewrite !after_bind, result_bind, after_uninitialised.
  change (after (ret true)) with (fun s' : State => s'). cbv beta.
  repeat (rewrite (selectWrite_after _ _ (mkState _ _)) by still_up Hup; cbn [dev hw]).
  rewrite (selectRead_result _ _ (mkState _ _)) by still_up Hup.
  cbn [dev hw regs world_after_write].
  split.
  - intros a Ha. apply reg_get_set_other. congruence.
  - rewrite reg_get_set_other by congruence.
    rewrite reg_get_set_same. by apply to_u8_id.
Qed.

End Thresholds.

(** ** Initialisation and what follows *)

Section Init.
Context {R : RegisterMap}.


(** X14. The arguments of initialisation are [uint8_t] and the fields that keep
    them [int8_t]; all the same, for every byte (128..255 included) the
    product id query that follows [initI2C] goes to the I2C address given, and
    the one that follows [initSPI] is framed on the chip-select pin given and
    returns the content of the product id register. *)
Theorem init_then_getProductId (address csPin resetPin : Z) (s : State) :
  is_u8 address ->
  is_u8 csPin ->
  let s1 := after (initI2C address resetPin) s in
  let s2 := after (initSPI csPin resetPin) s in
  log (hw (after getProductId s1)) =
    log (hw s1) ++
    [ EvI2CRead address CAP1188_PRODUCT_ID_REG
        (if i2c_up (hw s)
         then Some (reg_get (regs (hw s1)) CAP1188_PRODUCT_ID_REG)
         else None) ] /\
  log (hw (after getProductId s2)) =
    log (hw s2) ++
    spi_pointer_frame csPin CAP1188_PRODUCT_ID_REG ++
    spi_read_frame csPin (reg_get (regs (hw s2)) CAP1188_PRODUCT_ID_REG) /\
  result getProductId s2 = reg_get (regs (hw s2)) CAP1188_PRODUCT_ID_REG.
Proof.
  intros Haddr Hcs.
  destruct s as [[i ad rp cs] [rf p rd up jk l]]. cbn zeta.
  unfold after, result, initSPI, initI2C, getProductId.
  split; [| split].
  - destruct up; cbn; by rewrite (u8_i8_u8 address Haddr).
  - run_spi. unfold spi_pointer_frame, spi_read_frame.
    by rewrite !(u8_i8_u8 csPin Hcs).
  - run_spi. reflexivity.
Qed.

End Init.

(** ** A bus that is down *)

Lemma inert_ret {A : Type} (a : A) : inert (ret a).
Proof. intros s Hdown. auto. Qed.

Lemma inert_bind {A B : Type} (m : M A) (k : A -> M B) :
  inert m -> (forall a, inert (k a)) -> inert (bind m k).
Proof.
  intros Hm Hk s Hdown. rewrite after_bind.
  destruct (Hm s Hdown) as (Hdown1 & Hregs1 & Hjunk1).
  destruct (Hk (result m s) (after m s) Hdown1) as (Hdown2 & Hregs2 & Hjunk2).
  repeat split; [apply Hdown2 .. | congruence | congruence].
Qed.

Lemma inert_if {A : Type} (b : bool) (m1 m2 : M A) :
  inert m1 -> inert m2 -> inert (if b then m1 else m2).
Proof. by destruct b. Qed.

Lemma inert_uninitialised : inert uninitialised.
Proof. intros s Hdown. auto. Qed.

Section BusDown.
Context {R : RegisterMap}.

Lemma inert_selectRead (a buf : Z) : inert (selectRead a buf).
Proof.
  intros [[i ad rp cs] [rf p rd up jk l]] [Hi Hup]. cbn in Hi, Hup. subst i up.
  repeat split.
Qed.

Lemma inert_selectWrite (a v : Z) : inert (selectWrite a v).
Proof.
  intros [[i ad rp cs] [rf p rd up jk l]] [Hi Hup]. cbn in Hi, Hup. subst i up.
  repeat split.
Qed.

(** A read on a bus that is down hands back what the buffer held. *)
Lemma selectRead_bus_down (a buf : Z) (s : State) :
  bus_down s -> result (selectRead a buf) s = buf.
Proof.
  destruct s as [[i ad rp cs] [rf p rd up jk l]]. intros [Hi Hup].
  cbn in Hi, Hup. subst i up. reflexivity.
Qed.

#[local] Hint Resolve inert_selectRead inert_selectWrite inert_uninitialised : evprops.

Ltac inert_by :=
  repeat first
    [ solve [auto with evprops]
    | apply inert_ret
    | apply inert_if
    | apply inert_bind; [| intros ?] ].

Lemma inert_perform (o : Operation) : selects_transport o = true -> inert (perform o).
Proof.
  destruct o; cbn [selects_transport perform]; intros Hsel; try discriminate Hsel;
    unfold drop, getProductId, getManufacturerId, getRevision, getSensorInputs,
      setSensorInputLEDLinking, setStandbyConfiguration, getStandbyConfiguration,
      setAveragingAndSamplingConfig, getAveragingAndSamplingConfig,
      setSensorInputThresholdAll.
  all: try solve [inert_by].
  - unfold setMultipleTouchConfiguration.
    destruct enable; [destruct count as [|p|p]; [| do 3 (try destruct p as [p|p|]) |] |];
      cbn; inert_by.
  - unfold setSensorInputThreshold.
    destruct buttonNumber as [|p|p]; [inert_by | | inert_by].
    do 4 (try destruct p as [p|p|]); inert_by.
  - unfold getSensorInputThreshold.
    apply inert_bind; [| intros _; apply inert_ret].
    apply inert_bind; [apply inert_uninitialised | intros reg].
    destruct buttonNumber as [|p|p]; [inert_by | | inert_by].
    do 4 (try destruct p as [p|p|]); inert_by.
Qed.

Lemma inert_perform_all (ops : list Operation) :
  forallb selects_transport ops = true -> inert (perform_all ops).
Proof.
  induction ops as [| o rest IH]; cbn [perform_all forallb]; intros Hsel.
  - apply inert_ret.
  - apply andb_true_iff in Hsel. destruct Hsel as [Ho Hrest].
    apply inert_bind; [by apply inert_perform | intros _; by apply IH].
Qed.

(** X15. With the handle on I2C and the bus down, any sequence of the
    transport-selecting methods leaves the register file as it was, and the
    getters asked afterwards return what their uninitialised local held
    rather than a register: the product id, the sensor inputs and a valid
    channel's threshold are all that one stale byte. *)
Theorem bus_down_stale_reads (ops : list Operation) (c : Z) (s : State) :
  bus_down s ->
  forallb selects_transport ops = true ->
  1 <= c <= 8 ->
  let s' := after (perform_all ops) s in
  regs (hw s') = regs (hw s) /\
  result getProductId s' = to_u8 (junk (hw s)) /\
  result getSensorInputs s' = to_u8 (junk (hw s)) /\
  result (getSensorInputThreshold c) s' = to_u8 (junk (hw s)).
Proof.
  intros Hdown Hsel Hc s'.
  destruct (inert_perform_all ops Hsel s Hdown) as (Hdown' & Hregs & Hjunk).
  fold s' in Hdown', Hregs, Hjunk.
  split; [exact Hregs |]. rewrite <- Hjunk.
  split; [| split].
  - unfold getProductId. rewrite result_bind, after_uninitialised.
    by rewrite selectRead_bus_down.
  - unfold getSensorInputs.
    rewrite !result_bind, after_uninitialised, result_if.
    rewrite selectRead_bus_down by exact Hdown'.
    by destruct (result uninitialised s' =? 0).
  - assert (Hcases : c = 1 \/ c = 2 \/ c = 3 \/ c = 4 \/
                     c = 5 \/ c = 6 \/ c = 7 \/ c = 8) by lia.
    destruct Hcases as [-> | [-> | [-> | [-> | [-> | [-> | [-> | ->]]]]]]];
      unfold getSensorInputThreshold; rewrite result_bind, after_uninitialised;
      by rewrite selectRead_bus_down.
Qed.

End BusDown.

(** ** The further properties at concrete inputs *)

Lemma factory_up (d : CAP1188) : transport_up (factory d true).
Proof. intros _. reflexivity. Defined.

Lemma factory_spi (up : bool) : transport_up (factory spi_handle up).
Proof. intros Hi2c. discriminate Hi2c. Defined.

(** 128 samples, 2.56 ms, 140 ms: the largest value of every field. *)
Lemma averaging_round_trip_witness :
  result (getAveragingAndSamplingConfig (R := datasheet_regs))
    (after (setAveragingAndSamplingConfig (R := datasheet_regs) 0x07 0x03 0x03)
           (bench i2c_handle true))
  = (true, (0x07, 0x03, 0x03)).
Proof.
  apply (averaging_round_trip (R := datasheet_regs)); [lia | lia | lia | apply bench_up].
Defined.

(** Standby configuration 0x39 read as (0, 3, 2, 1) and written back. *)
Lemma standby_write_back_witness :
  reg_get (regs (hw (after (setStandbyConfiguration (R := datasheet_regs) 0 3 2 1)
                           (after (getStandbyConfiguration (R := datasheet_regs))
                                  (factory spi_handle true)))))
          0x41 = 0x39.
Proof.
  apply (standby_write_back (R := datasheet_regs) 0 3 2 1 (factory spi_handle true));
    [apply factory_spi | reflexivity].
Defined.

(** Averaging register 0xB9 read as (3, 2, 1) and written back: 0x39. *)
Lemma averaging_write_back_witness :
  reg_get (regs (hw (after (setAveragingAndSamplingConfig (R := datasheet_regs) 3 2 1)
                           (after (getAveragingAndSamplingConfig (R := datasheet_regs))
                                  (factory i2c_handle true)))))
          0x24 = 0x39.
Proof.
  apply (averaging_write_back (R := datasheet_regs) 3 2 1 (factory i2c_handle true));
    [apply factory_up | reflexivity].
Defined.

(** The SPI engine used on a handle initialised for I2C. *)
Lemma spi_write_then_read_witness :
  result (readRegisterFromAddress 0x30)
    (after (writeRegisterAtAddress 0x30 0x40) (factory i2c_handle false)) = 0x40 /\
  result (readRegisterFromAddress 0xFD)
    (after (writeRegisterAtAddress 0x30 0x40) (factory i2c_handle false)) = 0x50.
Proof.
  assert (H40 : is_u8 0x40) by (unfold is_u8; lia).
  destruct (spi_write_then_read 0x30 0xFD 0x40 (factory i2c_handle false) H40)
    as [Hsame Hother].
  split; [exact Hsame | apply Hother; lia].
Defined.

Lemma identity_queries_witness :
  result (getProductId (R := datasheet_regs)) (factory spi_handle true) = 0x50 /\
  result (getManufacturerId (R := datasheet_regs)) (factory spi_handle true) = 0x5D /\
  result (getRevision (R := datasheet_regs)) (factory spi_handle true) = 0x83.
Proof.
  destruct (identity_queries (R := datasheet_regs) _ (factory_spi true))
    as ((Hp & _) & (Hm & _) & (Hr & _)).
  repeat split; assumption.
Defined.

(** Reading the inputs, setting a threshold and reading it back on I2C:
    four I2C transfers and nothing else. *)
Lemma transport_exclusive_witness :
  exists evs,
    log (hw (after (perform_all (R := datasheet_regs)
                      [OpGetSensorInputs; OpSetSensorInputThreshold 2 0x10;
                       OpGetSensorInputThreshold 2])
                   (factory i2c_handle true))) = [] ++ evs /\
    forallb (fun e => Bool.eqb (uses_i2c e) true) evs = true.
Proof.
  apply (transport_exclusive (R := datasheet_regs) _ (factory i2c_handle true)).
  reflexivity.
Defined.

Lemma factory_same_chip : same_chip (factory i2c_handle true) (factory spi_handle false).
Proof. split; [reflexivity | split; [apply factory_up | apply factory_spi]]. Defined.

(** The same chip seen over I2C and over SPI. *)
Lemma transport_agnostic_witness :
  result (getProductId (R := datasheet_regs)) (factory i2c_handle true)
  = result (getProductId (R := datasheet_regs)) (factory spi_handle false) /\
  result (getStandbyConfiguration (R := datasheet_regs)) (factory i2c_handle true)
  = result (getStandbyConfiguration (R := datasheet_regs)) (factory spi_handle false).
Proof.
  destruct (transport_agnostic (R := datasheet_regs) _ _ factory_same_chip)
    as (Hp & _ & _ & _ & Hs & _).
  split; assumption.
Defined.

(** Recalibration configuration 0x0A becomes 0x8A; channel 1 gets the
    threshold and channel 2 keeps reading 0. *)
Lemma setSensorInputThresholdAll_witness :
  result (setSensorInputThresholdAll (R := datasheet_regs) 0x20) (factory spi_handle true)
  = false /\
  reg_get (regs (hw (after (setSensorInputThresholdAll (R := datasheet_regs) 0x20)
                           (factory spi_handle true)))) 0x30 = 0x20 /\
  reg_get (regs (hw (after (setSensorInputThresholdAll (R := datasheet_regs) 0x20)
                           (factory spi_handle true)))) 0x2F = 0x8A /\
  reg_get (regs (hw (after (setSensorInputThresholdAll (R := datasheet_regs) 0x20)
                           (factory spi_handle true)))) 0x31 = 0x00.
Proof.
  assert (H20 : is_u8 0x20) by (unfold is_u8; lia).
  assert (Hne : @CAPP1188_RECALIBRATION_CONFIGURATION_REG datasheet_regs
                <> @CAP1188_SENSOR_INPUT_1_THRESHOLD_REG datasheet_regs)
    by (cbn; lia).
  destruct (setSensorInputThresholdAll_effect (R := datasheet_regs) 0x20
              (factory spi_handle true) (factory_spi true) H20 Hne)
    as (Hres & _ & Hfirst & Hrecal & Hother).
  split; [exact Hres |]. split; [exact Hfirst |]. split; [exact Hrecal |].
  apply (Hother 0x31); cbn; lia.
Defined.

(** Channel 3 keeps 0x40 while channel 5 is set to 0x08. *)
Lemma threshold_channels_independent_witness :
  result (getSensorInputThreshold (R := datasheet_regs) 3)
    (after (setSensorInputThreshold (R := datasheet_regs) 5 0x08)
       (after (setSensorInputThreshold (R := datasheet_regs) 3 0x40)
          (factory i2c_handle true)))
  = 0x40.
Proof.
  assert (H40 : is_u8 0x40) by (unfold is_u8; lia).
  assert (Hne : threshold_reg (R := datasheet_regs) 3 <> threshold_reg (R := datasheet_regs) 5)
    by (cbn; lia).
  apply (threshold_channels_independent (R := datasheet_regs) 3 5 0x40 0x08
           (factory i2c_handle true) (factory_up i2c_handle));
    [lia | lia | exact H40 | exact Hne].
Defined.

(** I2C address 0xA9 and chip select on pin 200: both are negative once
    stored in the [int8_t] fields. *)
Lemma init_then_getProductId_witness :
  log (hw (after (getProductId (R := datasheet_regs))
                 (after (initI2C (R := datasheet_regs) 0xA9 5) (factory spi_handle true)))) =
    [ EvPinMode 5 OUTPUT;
      EvDigitalWrite 5 HIGH; EvDelay 10; EvDigitalWrite 5 LOW;
      EvI2CWrite 0xA9 0x2A 0 true; EvI2CWrite 0xA9 0x72 255 true;
      EvI2CRead 0xA9 0xFD (Some 0x50) ] /\
  result (getProductId (R := datasheet_regs))
    (after (initSPI (R := datasheet_regs) 200 5) (factory i2c_handle true)) = 0x50.
Proof.
  assert (Ha : is_u8 0xA9) by (unfold is_u8; lia).
  assert (Hc : is_u8 200) by (unfold is_u8; lia).
  split.
  - destruct (init_then_getProductId (R := datasheet_regs) 0xA9 200 5
                (factory spi_handle true) Ha Hc) as (Hlog & _).
    exact Hlog.
  - destruct (init_then_getProductId (R := datasheet_regs) 0xA9 200 5
                (factory i2c_handle true) Ha Hc) as (_ & _ & Hres).
    exact Hres.
Defined.

Lemma factory_down : bus_down (factory i2c_handle false).
Proof. split; reflexivity. Defined.

(** With the bus down the product id reads 0x77, the stale byte, after
    writes that report success. *)
Lemma bus_down_stale_reads_witness :
  regs (hw (after (perform_all (R := datasheet_regs)
                     [OpSetSensorInputLEDLinking 0x0F; OpSetSensorInputThreshold 1 0x40])
                  (factory i2c_handle false))) = factory_regs /\
  result (getProductId (R := datasheet_regs))
    (after (perform_all (R := datasheet_regs)
              [OpSetSensorInputLEDLinking 0x0F; OpSetSensorInputThreshold 1 0x40])
           (factory i2c_handle false)) = 0x77.
Proof.
  assert (Hc : 1 <= 1 <= 8) by lia.
  destruct (bus_down_stale_reads (R := datasheet_regs)
              [OpSetSensorInputLEDLinking 0x0F; OpSetSensorInputThreshold 1 0x40] 1
              (factory i2c_handle false) factory_down eq_refl Hc)
    as (Hregs & Hpid & _).
  split; [exact Hregs | exact Hpid].
Defined.
